(** * Control plane API (api/main.py): lifecycle, tenancy and audit events

    A shallow embedding of the FastAPI handlers of [api/main.py].

    - The relational store is the six tables the statements of the module
      address, each a list of rows in table order.
    - A handler is a computation over a database session: [db.execute]
      reads or rewrites the session's working copy of the tables,
      [db.commit] publishes it and ends the transaction.  Every committed
      state and every statement sent are recorded.
    - Exceptions are explicit results: [HTTPException] is what the handlers
      raise on purpose, [PyError] is an exception nobody catches (the
      framework answers 500).
    - The values bound to a statement go through the driver of the
      [postgresql://] engine, which adapts UUIDs, texts, integers, lists
      and None and has no adapter for a dict; the module registers none,
      so a statement with a dict among its parameters raises before it is
      sent.
    - The statement of [get_current_tenant] is built by interpolating the
      tenant claim into its text.  For a claim that cannot end the quoted
      literal the statement is the SET LOCAL it reads as; what the server
      does with any other claim is a parameter.
    - What the module imports and does not define is a parameter: the
      token decoder [jwt.decode], the constructor [uuid.UUID] and [str] on
      its values, and [datetime.isoformat].  The value [uuid.uuid4()]
      returns and the value the column default gives [created_at] are
      inputs of the handler that uses them.
    - The table declarations are not part of the module.  A statement has
      the meaning of its own text: a row is read or written when the WHERE
      clause of the statement selects it. *)

From Stdlib Require Import String Ascii List NArith ZArith Bool Lia.
From Stdlib Require Import DecimalString.
From Stdlib Require Import Sorted Permutation.
Import ListNotations.
Open Scope string_scope.
Open Scope list_scope.
Set Warnings "-register-all".

(* ------------------------------------------------------------------ *)
(** ** Values *)

(** JSON-shaped Python values: request bundles, token claims, response
    bodies. *)
Inductive Json : Type :=
| JNull
| JBool (b : bool)
| JNum (z : Z)
| JStr (s : string)
| JArr (items : list Json)
| JObj (fields : list (string * Json)).

(** Python truth value, as tested by [if not x]. *)
Definition truthy (v : Json) : bool :=
  match v with
  | JNull => false
  | JBool b => b
  | JNum z => negb (z =? 0)%Z
  | JStr s => negb (s =? "")
  | JArr items => match items with [] => false | _ => true end
  | JObj fields => match fields with [] => false | _ => true end
  end.

(** [d.get(key)]: the value under [key], [None] when absent. *)
Fixpoint dict_get (key : string) (d : list (string * Json)) : option Json :=
  match d with
  | [] => None
  | (k, v) :: rest => if k =? key then Some v else dict_get key rest
  end.

(** The 128-bit integer of a [uuid.UUID]. *)
Definition UUID := N.
(** A [datetime] stored by the database. *)
Definition Timestamp := N.

Definition opt_json (o : option Json) : Json :=
  match o with Some v => v | None => JNull end.
Definition opt_str (o : option string) : Json :=
  match o with Some s => JStr s | None => JNull end.
Definition str_list (l : list string) : Json := JArr (map JStr l).

(** A Python dict with text keys, as a request body or a literal has it. *)
Definition Dict := list (string * Json).
Definition opt_dict (o : option Dict) : option Json := option_map JObj o.

(** A character that ends or alters a quoted SQL literal. *)
Definition breaks_literal (c : ascii) : bool :=
  Ascii.eqb c "'" || Ascii.eqb c "\" || Ascii.eqb c Ascii.zero.

Fixpoint literal_safe (s : string) : bool :=
  match s with
  | EmptyString => true
  | String c rest => negb (breaks_literal c) && literal_safe rest
  end.

(** The claim, once formatted into a quoted literal, stays inside it: a
    text without such a character, a number or a boolean.  The text of a
    list or of a dict quotes the strings it holds. *)
Definition plain (v : Json) : bool :=
  match v with
  | JStr s => literal_safe s
  | JNum _ | JBool _ | JNull => true
  | JArr _ | JObj _ => false
  end.

(* ------------------------------------------------------------------ *)
(** ** Rows and tables *)

Module Template.
Record row := {
  template_id : UUID;
  tenant_id : UUID;
  name : string;
  description : option string;
  owner_org_id : option string;
  tags : list string;
  created_at : Timestamp }.
End Template.

Module Version.
Record row := {
  version_id : UUID;
  template_id : UUID;
  tenant_id : UUID;
  version_label : string;
  artifact_hash : string;
  model_bundle : Json;
  prompt_bundle : Json;
  tool_manifest : Json;
  data_scopes_declared : list string;
  build_provenance : option Json;
  release_status : string;
  created_at : Timestamp }.

Definition set_release_status (s : string) (r : row) : row :=
  {| version_id := version_id r; template_id := template_id r;
     tenant_id := tenant_id r; version_label := version_label r;
     artifact_hash := artifact_hash r; model_bundle := model_bundle r;
     prompt_bundle := prompt_bundle r; tool_manifest := tool_manifest r;
     data_scopes_declared := data_scopes_declared r;
     build_provenance := build_provenance r;
     release_status := s; created_at := created_at r |}.
End Version.

Module EvaluationRun.
Record row := {
  version_id : UUID;
  status : string;
  summary_scores : Json;
  completed_at : option Timestamp }.
End EvaluationRun.

Module Event.
Record row := {
  tenant_id : UUID;
  event_type : string;
  actor_type : string;
  actor_id : UUID;
  payload : Json }.
End Event.

Module Instance.
Record row := {
  instance_id : UUID;
  version_id : UUID;
  tenant_id : UUID;
  environment : string;
  runtime_target : option string;
  policy_envelope_id : UUID;
  status : string;
  created_at : Timestamp }.

Definition set_status (s : string) (r : row) : row :=
  {| instance_id := instance_id r; version_id := version_id r;
     tenant_id := tenant_id r; environment := environment r;
     runtime_target := runtime_target r;
     policy_envelope_id := policy_envelope_id r;
     status := s; created_at := created_at r |}.
End Instance.

Module Policy.
Record row := {
  policy_id : UUID;
  tenant_id : UUID;
  name : string;
  autonomy_tier : Z;
  allowed_tools : Json;
  allowed_data_scopes : list string;
  rate_limits : option Json;
  cost_limits : option Json;
  guardrails : option Json;
  created_at : Timestamp }.
End Policy.

Record Tables := {
  agent_templates : list Template.row;
  agent_versions : list Version.row;
  evaluation_runs : list EvaluationRun.row;
  events : list Event.row;
  agent_instances : list Instance.row;
  policy_envelopes : list Policy.row }.

Definition empty_tables : Tables :=
  {| agent_templates := []; agent_versions := []; evaluation_runs := [];
     events := []; agent_instances := []; policy_envelopes := [] |}.

Definition with_templates (f : list Template.row -> list Template.row) (t : Tables) :=
  {| agent_templates := f (agent_templates t); agent_versions := agent_versions t;
     evaluation_runs := evaluation_runs t; events := events t;
     agent_instances := agent_instances t; policy_envelopes := policy_envelopes t |}.
Definition with_versions (f : list Version.row -> list Version.row) (t : Tables) :=
  {| agent_templates := agent_templates t; agent_versions := f (agent_versions t);
     evaluation_runs := evaluation_runs t; events := events t;
     agent_instances := agent_instances t; policy_envelopes := policy_envelopes t |}.
Definition with_events (f : list Event.row -> list Event.row) (t : Tables) :=
  {| agent_templates := agent_templates t; agent_versions := agent_versions t;
     evaluation_runs := evaluation_runs t; events := f (events t);
     agent_instances := agent_instances t; policy_envelopes := policy_envelopes t |}.
Definition with_instances (f : list Instance.row -> list Instance.row) (t : Tables) :=
  {| agent_templates := agent_templates t; agent_versions := agent_versions t;
     evaluation_runs := evaluation_runs t; events := events t;
     agent_instances := f (agent_instances t); policy_envelopes := policy_envelopes t |}.
Definition with_policies (f : list Policy.row -> list Policy.row) (t : Tables) :=
  {| agent_templates := agent_templates t; agent_versions := agent_versions t;
     evaluation_runs := evaluation_runs t; events := events t;
     agent_instances := agent_instances t; policy_envelopes := f (policy_envelopes t) |}.

(** [ORDER BY ... DESC]: [before x y] says that [x] sorts strictly ahead
    of [y]; rows the order does not separate keep table order. *)
Fixpoint insert_sorted {A} (before : A -> A -> bool) (x : A) (l : list A) : list A :=
  match l with
  | [] => [x]
  | y :: rest => if before y x then y :: insert_sorted before x rest
                 else x :: y :: rest
  end.
Definition order_by {A} (before : A -> A -> bool) (l : list A) : list A :=
  fold_right (insert_sorted before) [] l.

Definition desc {A} (key : A -> N) (x y : A) : bool := (key y <? key x)%N.

(** Descending order on a nullable column: NULL sorts first. *)
Definition desc_nulls_first {A} (key : A -> option N) (x y : A) : bool :=
  match key x, key y with
  | None, Some _ => true
  | Some a, Some b => (b <? a)%N
  | _, _ => false
  end.

(** [fetchone()]: the first row of the result, [None] when it is empty. *)
Definition fetchone {A} (rows : list A) : option A := hd_error rows.

(* ------------------------------------------------------------------ *)
(** ** Sessions, statements and exceptions *)

(** The statements of the module, with the parameter that selects rows. *)
Inductive Sql : Type :=
| SET_LOCAL_current_tenant (interpolated : Json)
| INSERT_agent_templates (id : UUID)
| SELECT_agent_templates
| INSERT_agent_versions (id : UUID)
| SELECT_agent_versions (vid : UUID)
| SELECT_release_status (vid : UUID)
| SELECT_evaluation_runs (vid : UUID)
| UPDATE_release_status (vid : UUID)
| INSERT_events (tid : UUID)
| INSERT_agent_instances (id : UUID)
| SELECT_agent_instances
| UPDATE_instance_status (status : string) (iid : UUID)
| INSERT_policy_envelopes (id : UUID)
| SELECT_policy_envelopes
| SELECT_policy_envelope (pid : UUID).

Inductive StoreOp : Type :=
| Execute (q : Sql)
| Commit.

(** What outlives a request: the committed tables, every state a commit
    has published (oldest first) and every operation sent to the store. *)
Record Store := {
  tables : Tables;
  history : list Tables;
  operations : list StoreOp }.

(** A [Session] of [SessionLocal]: the transaction's working copy beside
    the committed tables, and the transaction-local setting
    [app.current_tenant]. *)
Record Session := {
  committed : Tables;
  working : Tables;
  current_tenant : option Json;
  commits : list Tables;
  sent : list StoreOp }.

Definition SessionLocal (st : Store) : Session :=
  {| committed := tables st; working := tables st; current_tenant := None;
     commits := history st; sent := operations st |}.

(** [db.close()] in [get_db]: work not committed is rolled back. *)
Definition close (db : Session) : Store :=
  {| tables := committed db; history := commits db; operations := sent db |}.

Inductive Exn : Type :=
| HTTPException (status_code : nat) (detail : string)
| PyError (kind : string) (message : string).

(** [str(e)]: Starlette prints an HTTPException as [status: detail]; the
    other exceptions print their message. *)
Definition str_exn (e : Exn) : string :=
  match e with
  | HTTPException code detail =>
      (NilEmpty.string_of_uint (Nat.to_uint code) ++ ": " ++ detail)%string
  | PyError _ msg => msg
  end.

Inductive Result (A : Type) : Type :=
| Return (a : A)
| Raise (e : Exn).
Arguments Return {A} a.
Arguments Raise {A} e.

Definition M (A : Type) : Type := Session -> Result A * Session.

Definition ret {A} (a : A) : M A := fun db => (Return a, db).
Definition raise {A} (e : Exn) : M A := fun db => (Raise e, db).
Definition bind {A B} (m : M A) (k : A -> M B) : M B :=
  fun db => match m db with
            | (Return a, db') => k a db'
            | (Raise e, db') => (Raise e, db')
            end.
(** [try: m except Exception as e: h e]. *)
Definition try_except {A} (m : M A) (h : Exn -> M A) : M A :=
  fun db => match m db with
            | (Return a, db') => (Return a, db')
            | (Raise e, db') => h e db'
            end.

Declare Scope py_scope.
Delimit Scope py_scope with py.
Notation "x <- m ;; k" := (bind m (fun x => k))
  (at level 61, m at next level, right associativity) : py_scope.
Notation "m ;; k" := (bind m (fun _ => k))
  (at level 61, right associativity) : py_scope.
Open Scope py_scope.

Definition log (op : StoreOp) (db : Session) : Session :=
  {| committed := committed db; working := working db;
     current_tenant := current_tenant db; commits := commits db;
     sent := sent db ++ [op] |}.

(** [db.execute] of a statement that reads. *)
Definition query {A} (q : Sql) (select : Tables -> A) : M A :=
  fun db => (Return (select (working db)), log (Execute q) db).

(** A value bound to a parameter of a statement that writes. *)
Inductive Bound : Type :=
| bound_uuid (u : UUID)
| bound_str (s : string)
| bound_opt_str (o : option string)
| bound_int (z : Z)
| bound_list (l : list string)
| bound_dict (d : Dict)
| bound_opt_dict (o : option Dict).

(** The driver adapts every bound value before the statement is sent; it
    has no adapter for a dict. *)
Definition adapts (b : Bound) : bool :=
  match b with
  | bound_dict _ => false
  | bound_opt_dict (Some _) => false
  | _ => true
  end.

(** [db.execute] of a statement that writes, with the values bound to
    it.  When one of them cannot be adapted the driver raises and nothing
    is sent. *)
Definition execute (q : Sql) (parameters : list Bound)
    (write : Tables -> Tables) : M unit :=
  fun db =>
    if forallb adapts parameters
    then
      let db' := log (Execute q) db in
      (Return tt,
       {| committed := committed db'; working := write (working db');
          current_tenant := current_tenant db'; commits := commits db';
          sent := sent db' |})
    else (Raise (PyError "ProgrammingError" "can't adapt type 'dict'"), db).

(** [db.commit()]: the working copy becomes the committed state and the
    transaction, with its local settings, ends. *)
Definition commit : M unit :=
  fun db =>
    let db' := log Commit db in
    (Return tt,
     {| committed := working db'; working := working db';
        current_tenant := None; commits := commits db' ++ [working db'];
        sent := sent db' |}).

(** A request: a fresh session, the handler, then [db.close()]. *)
Definition run {A} (m : M A) (st : Store) : Result A * Store :=
  let (r, db) := m (SessionLocal st) in (r, close db).

(* ------------------------------------------------------------------ *)
(** ** What the module imports, and the server it talks to *)

Class Library := {
  (** [jwt.decode(token, options={"verify_signature": False})]: the claims
      of the token, or the exception the decoder raises. *)
  jwt_decode : string -> Result (list (string * Json));
  (** [uuid.UUID(text)] on a text that holds no quote, backslash or NUL:
      [None] where the constructor raises ValueError. *)
  uuid_of_text : string -> option UUID;
  (** [str(u)] for a [uuid.UUID]. *)
  uuid_str : UUID -> string;
  (** [d.isoformat()] for a [datetime]. *)
  isoformat : Timestamp -> string;
  (** The server, on the statement of [get_current_tenant] when the claim
      interpolated into it is not [plain]: [None] when it refuses the text
      as ill-formed, otherwise the tables as the statements the text
      carries leave them in the transaction. *)
  interpolated_statements : Json -> Tables -> option Tables }.

(** [uuid.UUID(text)]: [None] where the constructor raises ValueError.
    It raises on every text with a quote, a backslash or a NUL, which
    [int(hex, 16)] refuses. *)
Definition uuid_parse {L : Library} (text : string) : option UUID :=
  if literal_safe text then uuid_of_text text else None.

(** [db.execute(text(f"SET LOCAL app.current_tenant = '{tenant_id}'"))].
    With a [plain] claim the statement sets the transaction-local
    setting, in force until the transaction ends.  With any other claim
    the text is no longer that one statement. *)
Definition set_local {L : Library} (v : Json) : M unit :=
  fun db =>
    let db' := log (Execute (SET_LOCAL_current_tenant v)) db in
    if plain v
    then
      (Return tt,
       {| committed := committed db'; working := working db';
          current_tenant := Some v; commits := commits db';
          sent := sent db' |})
    else
      match interpolated_statements v (working db') with
      | Some t =>
          (Return tt,
           {| committed := committed db'; working := t;
              current_tenant := Some v; commits := commits db';
              sent := sent db' |})
      | None => (Raise (PyError "ProgrammingError" "syntax error"), db')
      end.

(** [s.split(sep)] for a one-character separator. *)
Fixpoint split (sep : ascii) (s : string) : list string :=
  match s with
  | EmptyString => [EmptyString]
  | String c rest =>
      if Ascii.eqb c sep then EmptyString :: split sep rest
      else match split sep rest with
           | w :: ws => String c w :: ws
           | [] => [String c EmptyString]
           end
  end.

(** [s.startswith(p)]. *)
Definition startswith (p s : string) : bool := prefix p s.

(* ------------------------------------------------------------------ *)
(** ** Request bodies *)

Record CreateTemplateRequest := {
  ct_name : string;
  ct_description : option string;
  ct_owner_org_id : option string;
  ct_tags : list string }.

Record CreateVersionRequest := {
  cv_version_label : string;
  cv_artifact_hash : string;
  cv_model_bundle : Dict;
  cv_prompt_bundle : Dict;
  cv_tool_manifest : Dict;
  cv_data_scopes_declared : list string;
  cv_build_provenance : option Dict }.

Record CreateInstanceRequest := {
  ci_version_id : string;
  ci_environment : string;
  ci_runtime_target : option string;
  ci_policy_envelope_id : string }.

Record CreatePolicyRequest := {
  cp_name : string;
  cp_autonomy_tier : Z;
  cp_allowed_tools : Dict;
  cp_allowed_data_scopes : list string;
  cp_rate_limits : option Dict;
  cp_cost_limits : option Dict;
  cp_guardrails : option Dict }.

(* ------------------------------------------------------------------ *)
(** ** Dependencies and routes *)

Section Handlers.
Context {L : Library}.

(** [uuid.UUID(x)]: a value that is not a string has no [replace]. *)
Definition uuid_UUID (x : Json) : M UUID :=
  match x with
  | JStr s =>
      match uuid_parse s with
      | Some u => ret u
      | None => raise (PyError "ValueError" "badly formed hexadecimal UUID string")
      end
  | _ => raise (PyError "AttributeError" "object has no attribute 'replace'")
  end.

Definition get_current_tenant (authorization : option string) : M UUID :=
  match authorization with
  | None => raise (HTTPException 401 "Missing or invalid authorization")
  | Some a =>
      if (a =? "") || negb (startswith "Bearer " a)
      then raise (HTTPException 401 "Missing or invalid authorization")
      else
        match nth_error (split " " a) 1 with
        | None => raise (PyError "IndexError" "list index out of range")
        | Some token =>
            tenant_id <-
              try_except
                (match jwt_decode token with
                 | Raise e => raise e
                 | Return payload =>
                     let tenant_id := opt_json (dict_get "tenant_id" payload) in
                     if negb (truthy tenant_id)
                     then raise (HTTPException 401 "Token missing tenant_id")
                     else ret tenant_id
                 end)
                (fun e => raise (HTTPException 401 ("Invalid token: " ++ str_exn e)%string));;
            set_local tenant_id;;
            commit;;
            uuid_UUID tenant_id
        end
  end.

Definition create_template (req : CreateTemplateRequest)
    (uuid4 : UUID) (now : Timestamp) (tenant_id : UUID) : M Json :=
  let template_id := uuid4 in
  execute (INSERT_agent_templates template_id)
    [bound_uuid template_id; bound_uuid tenant_id; bound_str (ct_name req);
     bound_opt_str (ct_description req); bound_opt_str (ct_owner_org_id req);
     bound_list (ct_tags req)]
    (with_templates (fun rows => rows ++
       [{| Template.template_id := template_id;
           Template.tenant_id := tenant_id;
           Template.name := ct_name req;
           Template.description := ct_description req;
           Template.owner_org_id := ct_owner_org_id req;
           Template.tags := ct_tags req;
           Template.created_at := now |}]));;
  commit;;
  ret (JObj [("template_id", JStr (uuid_str template_id));
             ("name", JStr (ct_name req))]).

Definition list_templates (tenant_id : UUID) : M Json :=
  results <- query SELECT_agent_templates
    (fun t => order_by (desc Template.created_at) (agent_templates t));;
  ret (JObj [("templates", JArr (map (fun r =>
         JObj [("template_id", JStr (uuid_str (Template.template_id r)));
               ("name", JStr (Template.name r));
               ("description", opt_str (Template.description r));
               ("tags", str_list (Template.tags r));
               ("created_at", JStr (isoformat (Template.created_at r)))])
         results))]).

Definition create_version (template_id : string) (req : CreateVersionRequest)
    (uuid4 : UUID) (now : Timestamp) (tenant_id : UUID) : M Json :=
  let version_id := uuid4 in
  tpl <- uuid_UUID (JStr template_id);;
  execute (INSERT_agent_versions version_id)
    [bound_uuid version_id; bound_uuid tpl; bound_uuid tenant_id;
     bound_str (cv_version_label req); bound_str (cv_artifact_hash req);
     bound_dict (cv_model_bundle req); bound_dict (cv_prompt_bundle req);
     bound_dict (cv_tool_manifest req);
     bound_list (cv_data_scopes_declared req);
     bound_opt_dict (cv_build_provenance req)]
    (with_versions (fun rows => rows ++
       [{| Version.version_id := version_id;
           Version.template_id := tpl;
           Version.tenant_id := tenant_id;
           Version.version_label := cv_version_label req;
           Version.artifact_hash := cv_artifact_hash req;
           Version.model_bundle := JObj (cv_model_bundle req);
           Version.prompt_bundle := JObj (cv_prompt_bundle req);
           Version.tool_manifest := JObj (cv_tool_manifest req);
           Version.data_scopes_declared := cv_data_scopes_declared req;
           Version.build_provenance := opt_dict (cv_build_provenance req);
           Version.release_status := "draft";
           Version.created_at := now |}]));;
  commit;;
  ret (JObj [("version_id", JStr (uuid_str version_id));
             ("template_id", JStr template_id);
             ("release_status", JStr "draft");
             ("message", JStr "Version created. Evaluation will be triggered.")]).

Definition select_version (vid : UUID) (t : Tables) : option Version.row :=
  fetchone (filter (fun r => (Version.version_id r =? vid)%N) (agent_versions t)).

Definition get_version (version_id : string) (tenant_id : UUID) : M Json :=
  vid <- uuid_UUID (JStr version_id);;
  result <- query (SELECT_agent_versions vid) (select_version vid);;
  match result with
  | None => raise (HTTPException 404 "Version not found")
  | Some r =>
      ret (JObj [("version_id", JStr (uuid_str (Version.version_id r)));
                 ("template_id", JStr (uuid_str (Version.template_id r)));
                 ("version_label", JStr (Version.version_label r));
                 ("release_status", JStr (Version.release_status r));
                 ("model_bundle", Version.model_bundle r);
                 ("prompt_bundle", Version.prompt_bundle r);
                 ("created_at", JStr (isoformat (Version.created_at r)))])
  end.

(** [SELECT release_status FROM agent_versions WHERE version_id = :vid]. *)
Definition select_release_status (vid : UUID) (t : Tables) : option string :=
  option_map Version.release_status (select_version vid t).

(** [SELECT status, summary_scores FROM evaluation_runs WHERE version_id =
    :vid AND status = 'passed' ORDER BY completed_at DESC LIMIT 1]. *)
Definition select_passed_run (vid : UUID) (t : Tables) : option (string * Json) :=
  fetchone (firstn 1 (map (fun r => (EvaluationRun.status r, EvaluationRun.summary_scores r))
    (order_by (desc_nulls_first EvaluationRun.completed_at)
       (filter (fun r => (EvaluationRun.version_id r =? vid)%N
                         && (EvaluationRun.status r =? "passed"))
               (evaluation_runs t))))).

(** [UPDATE agent_versions SET release_status = 'approved' WHERE
    version_id = :vid]. *)
Definition update_release_status (vid : UUID) : Tables -> Tables :=
  with_versions (map (fun r => if (Version.version_id r =? vid)%N
                               then Version.set_release_status "approved" r else r)).

Definition promoted_payload (version_id : string) : Dict :=
  [("version_id", JStr version_id); ("from", JStr "candidate");
   ("to", JStr "approved")].

Definition promoted_event (tenant_id : UUID) (version_id : string) : Event.row :=
  {| Event.tenant_id := tenant_id;
     Event.event_type := "AgentVersionPromoted";
     Event.actor_type := "system";
     Event.actor_id := tenant_id;
     Event.payload := JObj (promoted_payload version_id) |}.

Definition promote_version (version_id : string) (tenant_id : UUID) : M Json :=
  vid <- uuid_UUID (JStr version_id);;
  current <- query (SELECT_release_status vid) (select_release_status vid);;
  if match current with
     | None => true
     | Some status => negb (status =? "candidate")
     end
  then raise (HTTPException 400 "Version must be in 'candidate' status")
  else
    eval_results <- query (SELECT_evaluation_runs vid) (select_passed_run vid);;
    match eval_results with
    | None => raise (HTTPException 400 "No passing evaluation found")
    | Some _ =>
        execute (UPDATE_release_status vid) [bound_uuid vid]
          (update_release_status vid);;
        commit;;
        execute (INSERT_events tenant_id)
          [bound_uuid tenant_id; bound_dict (promoted_payload version_id)]
          (with_events (fun rows => rows ++ [promoted_event tenant_id version_id]));;
        commit;;
        ret (JObj [("version_id", JStr version_id);
                   ("release_status", JStr "approved")])
    end.

Definition create_instance (req : CreateInstanceRequest)
    (uuid4 : UUID) (now : Timestamp) (tenant_id : UUID) : M Json :=
  let instance_id := uuid4 in
  ver <- uuid_UUID (JStr (ci_version_id req));;
  pol <- uuid_UUID (JStr (ci_policy_envelope_id req));;
  execute (INSERT_agent_instances instance_id)
    [bound_uuid instance_id; bound_uuid ver; bound_uuid tenant_id;
     bound_str (ci_environment req); bound_opt_str (ci_runtime_target req);
     bound_uuid pol]
    (with_instances (fun rows => rows ++
       [{| Instance.instance_id := instance_id;
           Instance.version_id := ver;
           Instance.tenant_id := tenant_id;
           Instance.environment := ci_environment req;
           Instance.runtime_target := ci_runtime_target req;
           Instance.policy_envelope_id := pol;
           Instance.status := "provisioning";
           Instance.created_at := now |}]));;
  commit;;
  ret (JObj [("instance_id", JStr (uuid_str instance_id));
             ("status", JStr "provisioning")]).

(** [agent_instances i JOIN agent_versions v ON i.version_id =
    v.version_id JOIN agent_templates t ON v.template_id = t.template_id
    ORDER BY i.created_at DESC]. *)
Definition select_instances (t : Tables)
  : list (Instance.row * Version.row * Template.row) :=
  order_by (desc (fun r => Instance.created_at (fst (fst r))))
    (flat_map (fun i =>
       flat_map (fun v =>
         if (Instance.version_id i =? Version.version_id v)%N
         then flat_map (fun tp =>
                if (Version.template_id v =? Template.template_id tp)%N
                then [(i, v, tp)] else [])
                (agent_templates t)
         else [])
         (agent_versions t))
       (agent_instances t)).

Definition list_instances (tenant_id : UUID) : M Json :=
  results <- query SELECT_agent_instances select_instances;;
  ret (JObj [("instances", JArr (map (fun r =>
         let '(i, v, tp) := r in
         JObj [("instance_id", JStr (uuid_str (Instance.instance_id i)));
               ("version_id", JStr (uuid_str (Instance.version_id i)));
               ("environment", JStr (Instance.environment i));
               ("status", JStr (Instance.status i));
               ("created_at", JStr (isoformat (Instance.created_at i)));
               ("version_label", JStr (Version.version_label v));
               ("template_name", JStr (Template.name tp))])
         results))]).

(** [UPDATE agent_instances SET status = :status WHERE instance_id = :iid]. *)
Definition update_instance_status (status : string) (iid : UUID) : Tables -> Tables :=
  with_instances (map (fun r => if (Instance.instance_id r =? iid)%N
                                then Instance.set_status status r else r)).

Definition update_instance (instance_id status : string) (tenant_id : UUID) : M Json :=
  iid <- uuid_UUID (JStr instance_id);;
  execute (UPDATE_instance_status status iid) [bound_str status; bound_uuid iid]
    (update_instance_status status iid);;
  commit;;
  ret (JObj [("instance_id", JStr instance_id); ("status", JStr status)]).

Definition create_policy (req : CreatePolicyRequest)
    (uuid4 : UUID) (now : Timestamp) (tenant_id : UUID) : M Json :=
  let policy_id := uuid4 in
  execute (INSERT_policy_envelopes policy_id)
    [bound_uuid policy_id; bound_uuid tenant_id; bound_str (cp_name req);
     bound_int (cp_autonomy_tier req); bound_dict (cp_allowed_tools req);
     bound_list (cp_allowed_data_scopes req);
     bound_opt_dict (cp_rate_limits req); bound_opt_dict (cp_cost_limits req);
     bound_opt_dict (cp_guardrails req)]
    (with_policies (fun rows => rows ++
       [{| Policy.policy_id := policy_id;
           Policy.tenant_id := tenant_id;
           Policy.name := cp_name req;
           Policy.autonomy_tier := cp_autonomy_tier req;
           Policy.allowed_tools := JObj (cp_allowed_tools req);
           Policy.allowed_data_scopes := cp_allowed_data_scopes req;
           Policy.rate_limits := opt_dict (cp_rate_limits req);
           Policy.cost_limits := opt_dict (cp_cost_limits req);
           Policy.guardrails := opt_dict (cp_guardrails req);
           Policy.created_at := now |}]));;
  commit;;
  ret (JObj [("policy_id", JStr (uuid_str policy_id));
             ("name", JStr (cp_name req))]).

Definition list_policies (tenant_id : UUID) : M Json :=
  results <- query SELECT_policy_envelopes
    (fun t => order_by (desc Policy.created_at) (policy_envelopes t));;
  ret (JObj [("policies", JArr (map (fun r =>
         JObj [("policy_id", JStr (uuid_str (Policy.policy_id r)));
               ("name", JStr (Policy.name r));
               ("autonomy_tier", JNum (Policy.autonomy_tier r));
               ("created_at", JStr (isoformat (Policy.created_at r)))])
         results))]).

Definition select_policy (pid : UUID) (t : Tables) : option Policy.row :=
  fetchone (filter (fun r => (Policy.policy_id r =? pid)%N) (policy_envelopes t)).

Definition get_policy (policy_id : string) (tenant_id : UUID) : M Json :=
  pid <- uuid_UUID (JStr policy_id);;
  result <- query (SELECT_policy_envelope pid) (select_policy pid);;
  match result with
  | None => raise (HTTPException 404 "Policy not found")
  | Some r =>
      ret (JObj [("policy_id", JStr (uuid_str (Policy.policy_id r)));
                 ("name", JStr (Policy.name r));
                 ("autonomy_tier", JNum (Policy.autonomy_tier r));
                 ("allowed_tools", Policy.allowed_tools r);
                 ("allowed_data_scopes", str_list (Policy.allowed_data_scopes r));
                 ("rate_limits", opt_json (Policy.rate_limits r));
                 ("cost_limits", opt_json (Policy.cost_limits r));
                 ("guardrails", opt_json (Policy.guardrails r));
                 ("created_at", JStr (isoformat (Policy.created_at r)))])
  end.

Definition health : M Json :=
  ret (JObj [("status", JStr "ok"); ("service", JStr "control-plane")]).

(** *** The application: one constructor per registered route *)

Inductive Route : Type :=
| POST_templates (req : CreateTemplateRequest)
| GET_templates
| POST_template_versions (template_id : string) (req : CreateVersionRequest)
| GET_version (version_id : string)
| POST_version_promote (version_id : string)
| POST_instances (req : CreateInstanceRequest)
| GET_instances
| PATCH_instance (instance_id : string) (status : string)
| POST_policies (req : CreatePolicyRequest)
| GET_policies
| GET_policy (policy_id : string)
| GET_health.

(** A request, with the two values its handler draws from outside:
    [uuid.uuid4()] and the [created_at] the store assigns. *)
Record Request := {
  authorization : option string;
  route : Route;
  uuid4 : UUID;
  now : Timestamp }.

(** The route's function, given the tenant its dependency resolved. *)
Definition endpoint (rq : Request) (tenant_id : UUID) : M Json :=
  match route rq with
  | POST_templates req => create_template req (uuid4 rq) (now rq) tenant_id
  | GET_templates => list_templates tenant_id
  | POST_template_versions template_id req =>
      create_version template_id req (uuid4 rq) (now rq) tenant_id
  | GET_version version_id => get_version version_id tenant_id
  | POST_version_promote version_id => promote_version version_id tenant_id
  | POST_instances req => create_instance req (uuid4 rq) (now rq) tenant_id
  | GET_instances => list_instances tenant_id
  | PATCH_instance instance_id status => update_instance instance_id status tenant_id
  | POST_policies req => create_policy req (uuid4 rq) (now rq) tenant_id
  | GET_policies => list_policies tenant_id
  | GET_policy policy_id => get_policy policy_id tenant_id
  | GET_health => health
  end.

Definition requires_tenant (r : Route) : bool :=
  match r with GET_health => false | _ => true end.

(** [Depends(get_current_tenant)] runs before the route's function; when
    it raises, the function is not called. *)
Definition app (rq : Request) : M Json :=
  if requires_tenant (route rq)
  then tenant_id <- get_current_tenant (authorization rq);; endpoint rq tenant_id
  else health.

Definition handle (rq : Request) (st : Store) : Result Json * Store :=
  run (app rq) st.

End Handlers.

(* ------------------------------------------------------------------ *)
(** ** [promote_version], one store operation at a time

    Two requests are served by two workers, each with a session of its
    own, over the one store.  A statement reads what is committed when it
    runs together with the writes of its own transaction; the writes reach
    the committed rows when the transaction commits.  The machine below
    runs the body of [promote_version] one [db.execute] or [db.commit] per
    step, so that the steps of two calls can be interleaved. *)

Inductive Write : Type :=
| W_update_release_status (vid : UUID)
| W_insert_event (row : Event.row).

Inductive Pc : Type :=
| at_select_status
| at_select_runs (vid : UUID)
| at_update (vid : UUID)
| at_commit_update
| at_insert_event
| at_commit_event
| finished (r : Result Json).

Record Worker := {
  pc : Pc;
  uncommitted : list Write }.

Definition start : Worker := {| pc := at_select_status; uncommitted := [] |}.

Definition sent_to (op : StoreOp) (st : Store) : Store :=
  {| tables := tables st; history := history st;
     operations := operations st ++ [op] |}.

Section Steps.
Context {L : Library}.

Definition apply_write (w : Write) : Tables -> Tables :=
  match w with
  | W_update_release_status vid => update_release_status vid
  | W_insert_event row => with_events (fun rows => rows ++ [row])
  end.

Definition view (w : Worker) (st : Store) : Tables :=
  fold_left (fun t wr => apply_write wr t) (uncommitted w) (tables st).

Definition commit_worker (w : Worker) (st : Store) : Store :=
  {| tables := view w st; history := history st ++ [view w st];
     operations := operations st ++ [Commit] |}.

Definition promote_step (version_id : string) (tenant_id : UUID)
    (w : Worker) (st : Store) : Worker * Store :=
  match pc w with
  | at_select_status =>
      match uuid_parse version_id with
      | None =>
          ({| pc := finished (Raise (PyError "ValueError"
                       "badly formed hexadecimal UUID string"));
              uncommitted := uncommitted w |}, st)
      | Some vid =>
          let next :=
            match select_release_status vid (view w st) with
            | None => finished (Raise (HTTPException 400
                                  "Version must be in 'candidate' status"))
            | Some status =>
                if negb (status =? "candidate")
                then finished (Raise (HTTPException 400
                                 "Version must be in 'candidate' status"))
                else at_select_runs vid
            end in
          ({| pc := next; uncommitted := uncommitted w |},
           sent_to (Execute (SELECT_release_status vid)) st)
      end
  | at_select_runs vid =>
      let next :=
        match select_passed_run vid (view w st) with
        | None => finished (Raise (HTTPException 400 "No passing evaluation found"))
        | Some _ => at_update vid
        end in
      ({| pc := next; uncommitted := uncommitted w |},
       sent_to (Execute (SELECT_evaluation_runs vid)) st)
  | at_update vid =>
      ({| pc := at_commit_update;
          uncommitted := uncommitted w ++ [W_update_release_status vid] |},
       sent_to (Execute (UPDATE_release_status vid)) st)
  | at_commit_update =>
      ({| pc := at_insert_event; uncommitted := [] |}, commit_worker w st)
  | at_insert_event =>
      if forallb adapts [bound_uuid tenant_id;
                         bound_dict (promoted_payload version_id)]
      then
        ({| pc := at_commit_event;
            uncommitted := uncommitted w
                             ++ [W_insert_event (promoted_event tenant_id version_id)] |},
         sent_to (Execute (INSERT_events tenant_id)) st)
      else
        ({| pc := finished (Raise (PyError "ProgrammingError"
                                     "can't adapt type 'dict'"));
            uncommitted := uncommitted w |}, st)
  | at_commit_event =>
      ({| pc := finished (Return (JObj [("version_id", JStr version_id);
                                        ("release_status", JStr "approved")]));
          uncommitted := [] |},
       commit_worker w st)
  | finished r => (w, st)
  end.

(** One call alone: [n] steps in a row. *)
Fixpoint promote_steps (n : nat) (version_id : string) (tenant_id : UUID)
    (w : Worker) (st : Store) : Worker * Store :=
  match n with
  | O => (w, st)
  | S k => let (w', st') := promote_step version_id tenant_id w st in
           promote_steps k version_id tenant_id w' st'
  end.

(** Two calls for the same version: the schedule names the worker that
    takes the next step. *)
Inductive Who : Type := first | second.

Fixpoint interleave (schedule : list Who) (version_id : string)
    (tenant_id : UUID) (a b : Worker) (st : Store) : Worker * Worker * Store :=
  match schedule with
  | [] => (a, b, st)
  | first :: rest =>
      let (a', st') := promote_step version_id tenant_id a st in
      interleave rest version_id tenant_id a' b st'
  | second :: rest =>
      let (b', st') := promote_step version_id tenant_id b st in
      interleave rest version_id tenant_id a b' st'
  end.

End Steps.

(* ------------------------------------------------------------------ *)
(** ** Observations on a store *)

Section Observations.
Context {L : Library}.

(** The event records the promotion of version [vid]: its type is
    AgentVersionPromoted and the [version_id] of its payload reads as
    [vid]. *)
Definition is_promotion_of (vid : UUID) (e : Event.row) : bool :=
  (Event.event_type e =? "AgentVersionPromoted") &&
  match Event.payload e with
  | JObj fields =>
      match dict_get "version_id" fields with
      | Some (JStr s) =>
          match uuid_parse s with
          | Some u => (u =? vid)%N
          | None => false
          end
      | _ => false
      end
  | _ => false
  end.

Definition promotions_of (vid : UUID) (t : Tables) : list Event.row :=
  filter (is_promotion_of vid) (events t).

(** A passing EvaluationRun exists for the version. *)
Definition has_passed_run (vid : UUID) (t : Tables) : bool :=
  existsb (fun r => (EvaluationRun.version_id r =? vid)%N
                    && (EvaluationRun.status r =? "passed"))
          (evaluation_runs t).

(** The credential resolves to the tenant: what [get_current_tenant]
    returns, whatever the session. *)
Definition resolves (authorization : option string) (tenant : UUID) : Prop :=
  fst (get_current_tenant authorization (SessionLocal
         {| tables := empty_tables; history := []; operations := [] |}))
  = Return tenant.

(** The version is in status candidate, as [promote_version] reads it. *)
Definition candidate (vid : UUID) (t : Tables) : bool :=
  match select_release_status vid t with
  | Some status => status =? "candidate"
  | None => false
  end.

Definition precondition_failed : Exn :=
  HTTPException 400 "Version must be in 'candidate' status".
Definition gate_failed : Exn :=
  HTTPException 400 "No passing evaluation found".

(** What the driver raises on a dict bound to a statement; nothing
    catches it. *)
Definition driver_refuses : Exn :=
  PyError "ProgrammingError" "can't adapt type 'dict'".

(** The tenant claim that [get_current_tenant] interpolates into its
    statement, when the credential gets that far: the header is a bearer
    credential, the token decodes and its [tenant_id] is truthy. *)
Definition tenant_claim (authorization : option string) : option Json :=
  match authorization with
  | None => None
  | Some a =>
      if (a =? "") || negb (startswith "Bearer " a) then None
      else
        match nth_error (split " " a) 1 with
        | None => None
        | Some token =>
            match jwt_decode token with
            | Raise _ => None
            | Return payload =>
                let tenant_id := opt_json (dict_get "tenant_id" payload) in
                if truthy tenant_id then Some tenant_id else None
            end
        end
  end.

(** The credential carries no SQL: the claim interpolated, if any, is
    [plain]. *)
Definition injection_free (authorization : option string) : bool :=
  match tenant_claim authorization with
  | Some v => plain v
  | None => true
  end.

(** The failures the handlers raise with a fixed message. *)
Definition fixed_failures : list Exn :=
  [ HTTPException 401 "Missing or invalid authorization";
    HTTPException 404 "Version not found";
    HTTPException 404 "Policy not found";
    precondition_failed;
    gate_failed ].

(** The failure raised by the [except] clause of [get_current_tenant]:
    its message ends with the text of the exception caught, which is
    either what the decoder raised or the HTTPException raised two lines
    above for claims without a tenant. *)
Definition token_failure (e : Exn) : Prop :=
  exists caught,
    e = HTTPException 401 ("Invalid token: " ++ str_exn caught)%string
    /\ ((exists token, jwt_decode token = Raise caught)
        \/ caught = HTTPException 401 "Token missing tenant_id").

(** The session as [get_current_tenant] leaves it when it returns: the
    SET LOCAL was sent and committed, and the setting ended with the
    transaction. *)
Definition authenticated_session (v : Json) (db : Session) : Session :=
  {| committed := working db; working := working db; current_tenant := None;
     commits := commits db ++ [working db];
     sent := (sent db ++ [Execute (SET_LOCAL_current_tenant v)]) ++ [Commit] |}.

(** The credentials the Unauthenticated error is for: none, one that is
    not a bearer credential, a token the decoder refuses, and claims
    without a tenant identifier. *)
Inductive rejected_credential : option string -> Prop :=
| credential_missing :
    rejected_credential None
| credential_malformed a :
    a = "" \/ startswith "Bearer " a = false ->
    rejected_credential (Some a)
| credential_undecodable a token e :
    startswith "Bearer " a = true ->
    nth_error (split " " a) 1 = Some token ->
    jwt_decode token = Raise e ->
    rejected_credential (Some a)
| credential_without_tenant a token payload :
    startswith "Bearer " a = true ->
    nth_error (split " " a) 1 = Some token ->
    jwt_decode token = Return payload ->
    truthy (opt_json (dict_get "tenant_id" payload)) = false ->
    rejected_credential (Some a).

(** *** The entries and bodies the routes answer with *)

Definition template_entry (r : Template.row) : Json :=
  JObj [("template_id", JStr (uuid_str (Template.template_id r)));
        ("name", JStr (Template.name r));
        ("description", opt_str (Template.description r));
        ("tags", str_list (Template.tags r));
        ("created_at", JStr (isoformat (Template.created_at r)))].

Definition policy_entry (r : Policy.row) : Json :=
  JObj [("policy_id", JStr (uuid_str (Policy.policy_id r)));
        ("name", JStr (Policy.name r));
        ("autonomy_tier", JNum (Policy.autonomy_tier r));
        ("created_at", JStr (isoformat (Policy.created_at r)))].

Definition instance_entry (r : Instance.row * Version.row * Template.row) : Json :=
  let '(i, v, tp) := r in
  JObj [("instance_id", JStr (uuid_str (Instance.instance_id i)));
        ("version_id", JStr (uuid_str (Instance.version_id i)));
        ("environment", JStr (Instance.environment i));
        ("status", JStr (Instance.status i));
        ("created_at", JStr (isoformat (Instance.created_at i)));
        ("version_label", JStr (Version.version_label v));
        ("template_name", JStr (Template.name tp))].

Definition version_body (r : Version.row) : Json :=
  JObj [("version_id", JStr (uuid_str (Version.version_id r)));
        ("template_id", JStr (uuid_str (Version.template_id r)));
        ("version_label", JStr (Version.version_label r));
        ("release_status", JStr (Version.release_status r));
        ("model_bundle", Version.model_bundle r);
        ("prompt_bundle", Version.prompt_bundle r);
        ("created_at", JStr (isoformat (Version.created_at r)))].

Definition policy_body (r : Policy.row) : Json :=
  JObj [("policy_id", JStr (uuid_str (Policy.policy_id r)));
        ("name", JStr (Policy.name r));
        ("autonomy_tier", JNum (Policy.autonomy_tier r));
        ("allowed_tools", Policy.allowed_tools r);
        ("allowed_data_scopes", str_list (Policy.allowed_data_scopes r));
        ("rate_limits", opt_json (Policy.rate_limits r));
        ("cost_limits", opt_json (Policy.cost_limits r));
        ("guardrails", opt_json (Policy.guardrails r));
        ("created_at", JStr (isoformat (Policy.created_at r)))].

(** The rows the create routes insert. *)
Definition new_template (rq : Request) (req : CreateTemplateRequest)
    (tenant : UUID) : Template.row :=
  {| Template.template_id := uuid4 rq; Template.tenant_id := tenant;
     Template.name := ct_name req; Template.description := ct_description req;
     Template.owner_org_id := ct_owner_org_id req; Template.tags := ct_tags req;
     Template.created_at := now rq |}.

Definition new_instance (rq : Request) (req : CreateInstanceRequest)
    (ver pol tenant : UUID) : Instance.row :=
  {| Instance.instance_id := uuid4 rq; Instance.version_id := ver;
     Instance.tenant_id := tenant; Instance.environment := ci_environment req;
     Instance.runtime_target := ci_runtime_target req;
     Instance.policy_envelope_id := pol; Instance.status := "provisioning";
     Instance.created_at := now rq |}.

(** What a request whose credential carries no SQL can have done to the
    tables when it is over: nothing, or the one write of its route that
    is committed. *)
Inductive Effect (rq : Request) (t : Tables) : Tables -> Prop :=
| effect_none :
    Effect rq t t
| effect_create_template req tenant :
    route rq = POST_templates req ->
    Effect rq t (with_templates (fun rows => rows ++ [new_template rq req tenant]) t)
| effect_promote version_id vid :
    route rq = POST_version_promote version_id ->
    uuid_parse version_id = Some vid ->
    candidate vid t = true ->
    has_passed_run vid t = true ->
    Effect rq t (update_release_status vid t)
| effect_create_instance req ver pol tenant :
    route rq = POST_instances req ->
    uuid_parse (ci_version_id req) = Some ver ->
    uuid_parse (ci_policy_envelope_id req) = Some pol ->
    Effect rq t (with_instances (fun rows => rows ++ [new_instance rq req ver pol tenant]) t)
| effect_update_instance instance_id status iid :
    route rq = PATCH_instance instance_id status ->
    uuid_parse instance_id = Some iid ->
    Effect rq t (update_instance_status status iid t).

(** The store after a sequence of requests, served one after the other. *)
Definition serve (rqs : list Request) (st : Store) : Store :=
  fold_left (fun s rq => snd (handle rq s)) rqs st.

(** The identifier a route takes from its path. *)
Definition path_identifier (r : Route) : option string :=
  match r with
  | POST_template_versions template_id _ => Some template_id
  | GET_version version_id => Some version_id
  | POST_version_promote version_id => Some version_id
  | PATCH_instance instance_id _ => Some instance_id
  | GET_policy policy_id => Some policy_id
  | _ => None
  end.

(** The routes that only read. *)
Definition reads_only (r : Route) : bool :=
  match r with
  | GET_templates | GET_version _ | GET_instances | GET_policies
  | GET_policy _ | GET_health => true
  | _ => false
  end.

(** No version is in status candidate. *)
Definition no_candidate (t : Tables) : Prop :=
  Forall (fun r => Version.release_status r <> "candidate") (agent_versions t).

(** A version row as a later state may hold it: unchanged, or approved. *)
Definition version_kept (r r' : Version.row) : Prop :=
  r' = r \/ r' = Version.set_release_status "approved" r.

(** An instance row as a later state may hold it: unchanged but for its
    status. *)
Definition instance_kept (r r' : Instance.row) : Prop :=
  exists status, r' = Instance.set_status status r.

End Observations.

(* ------------------------------------------------------------------ *)
(** ** A concrete library and concrete stores for the examples *)

Module Sample.

Definition hex_digit (c : ascii) : option N :=
  let n := N_of_ascii c in
  if (48 <=? n)%N && (n <=? 57)%N then Some (n - 48)%N
  else if (97 <=? n)%N && (n <=? 102)%N then Some (n - 87)%N
  else if (65 <=? n)%N && (n <=? 70)%N then Some (n - 55)%N
  else None.

Fixpoint hex_value (s : string) (acc : N) : option N :=
  match s with
  | EmptyString => Some acc
  | String c rest =>
      match hex_digit c with
      | Some d => hex_value rest (16 * acc + d)%N
      | None => None
      end
  end.

Fixpoint without_hyphens (s : string) : string :=
  match s with
  | EmptyString => EmptyString
  | String c rest => if Ascii.eqb c "-" then without_hyphens rest
                     else String c (without_hyphens rest)
  end.

(** The hyphenated and the plain 32-digit spellings of [uuid.UUID]. *)
Definition parse_uuid (s : string) : option UUID :=
  let h := without_hyphens s in
  if (String.length h =? 32)%nat then hex_value h 0%N else None.

Definition digit_hex (d : N) : ascii :=
  if (d <? 10)%N then ascii_of_N (48 + d) else ascii_of_N (87 + d).

Fixpoint hex_digits (n : nat) (x : N) (acc : string) : string :=
  match n with
  | O => acc
  | S k => hex_digits k (x / 16)%N (String (digit_hex (x mod 16)%N) acc)
  end.

Definition print_uuid (u : UUID) : string :=
  let h := hex_digits 32 u "" in
  (substring 0 8 h ++ "-" ++ substring 8 4 h ++ "-" ++ substring 12 4 h
   ++ "-" ++ substring 16 4 h ++ "-" ++ substring 20 12 h)%string.

(** A stand-in for the decoder: a token of fewer than three segments is
    refused as PyJWT refuses it; otherwise the middle segment is taken
    for the [tenant_id] claim, and an empty one for claims without it. *)
Definition decode (token : string) : Result (list (string * Json)) :=
  match split "." token with
  | _ :: claim :: _ :: _ =>
      if claim =? "" then Return [] else Return [("tenant_id", JStr claim)]
  | _ => Raise (PyError "DecodeError" "Not enough segments")
  end.

(** A stand-in for [isoformat]: the seconds in decimal. *)
Definition seconds (t : Timestamp) : string :=
  NilEmpty.string_of_uint (N.to_uint t).

(** A claim that ends the literal and goes on with a statement of its
    own. *)
Definition delete_templates : string :=
  "x';DELETE/**/FROM/**/agent_templates;--".

(** A stand-in for the server: it runs the statement the claim above
    carries and refuses every other text that is not plain. *)
Definition server (v : Json) (t : Tables) : option Tables :=
  match v with
  | JStr s => if s =? delete_templates
              then Some (with_templates (fun _ => []) t) else None
  | _ => None
  end.

Definition library : Library :=
  {| jwt_decode := decode; uuid_of_text := parse_uuid;
     uuid_str := print_uuid; isoformat := seconds;
     interpolated_statements := server |}.

Definition tenant1 : UUID := 1%N.
Definition tenant2 : UUID := 2%N.
Definition bearer1 : option string :=
  Some "Bearer h.00000000-0000-0000-0000-000000000001.s".
Definition bearer2 : option string :=
  Some "Bearer h.00000000-0000-0000-0000-000000000002.s".

Definition vid : UUID := 10%N.
Definition vid_text : string := "00000000-0000-0000-0000-00000000000a".
Definition tpl : UUID := 7%N.
Definition tpl_text : string := "00000000-0000-0000-0000-000000000007".
Definition iid : UUID := 12%N.
Definition iid_text : string := "00000000-0000-0000-0000-00000000000c".

Definition template1 : Template.row :=
  {| Template.template_id := tpl; Template.tenant_id := tenant1;
     Template.name := "triage"; Template.description := None;
     Template.owner_org_id := None; Template.tags := [];
     Template.created_at := 100%N |}.

Definition version1 (status : string) : Version.row :=
  {| Version.version_id := vid; Version.template_id := tpl;
     Version.tenant_id := tenant1; Version.version_label := "v1";
     Version.artifact_hash := "sha256:00"; Version.model_bundle := JObj [];
     Version.prompt_bundle := JObj []; Version.tool_manifest := JObj [];
     Version.data_scopes_declared := []; Version.build_provenance := None;
     Version.release_status := status; Version.created_at := 101%N |}.

Definition passed_run : EvaluationRun.row :=
  {| EvaluationRun.version_id := vid; EvaluationRun.status := "passed";
     EvaluationRun.summary_scores := JObj [];
     EvaluationRun.completed_at := Some 102%N |}.

Definition instance1 : Instance.row :=
  {| Instance.instance_id := iid; Instance.version_id := vid;
     Instance.tenant_id := tenant1; Instance.environment := "prod";
     Instance.runtime_target := None; Instance.policy_envelope_id := 9%N;
     Instance.status := "retired"; Instance.created_at := 103%N |}.

Definition store_of (t : Tables) : Store :=
  {| tables := t; history := []; operations := [] |}.

(** Tenant 1 owns a template and one version of it, in the given
    release status, with a passing evaluation run and one instance. *)
Definition tables1 (status : string) : Tables :=
  {| agent_templates := [template1]; agent_versions := [version1 status];
     evaluation_runs := [passed_run]; events := [];
     agent_instances := [instance1]; policy_envelopes := [] |}.

Definition version_request : CreateVersionRequest :=
  {| cv_version_label := "v2"; cv_artifact_hash := "sha256:01";
     cv_model_bundle := [("model", JStr "m-1")];
     cv_prompt_bundle := [("system", JStr "triage")];
     cv_tool_manifest := []; cv_data_scopes_declared := [];
     cv_build_provenance := None |}.

Definition request (a : option string) (r : Route) : Request :=
  {| authorization := a; route := r; uuid4 := 99%N; now := 200%N |}.

Definition template_request : CreateTemplateRequest :=
  {| ct_name := "triage"; ct_description := None; ct_owner_org_id := None;
     ct_tags := ["support"] |}.

(** Tenant 1 creates a template, then a version under it. *)
Definition create_template_rq : Request :=
  {| authorization := bearer1; route := POST_templates template_request;
     uuid4 := tpl; now := 100%N |}.
Definition create_version_rq : Request :=
  {| authorization := bearer1;
     route := POST_template_versions tpl_text version_request;
     uuid4 := vid; now := 101%N |}.

Definition empty_store : Store := store_of empty_tables.

(** The two calls read the status, then read the runs, before either
    writes. *)
Definition overlapping : list Who :=
  [first; second; first; second;
   first; first; second; second;
   first; first; second; second].

Definition undecodable_rq : Request := request (Some "Bearer garbage") GET_templates.
Definition promote_rq : Request :=
  request bearer1 (POST_version_promote vid_text).
Definition promote_again_rq : Request :=
  request bearer2 (POST_version_promote vid_text).
Definition candidate_store : Store := store_of (tables1 "candidate").
Definition draft_store : Store := store_of (tables1 "draft").
Definition foreign_version_rq : Request :=
  request bearer2
    (POST_template_versions tpl_text version_request).
Definition orphan_version_rq : Request :=
  request bearer2
    (POST_template_versions "00000000-0000-0000-0000-0000000000ff"
       version_request).
Definition pause_rq : Request :=
  request bearer1 (PATCH_instance iid_text "paused").

Definition pol : UUID := 9%N.
Definition pol_text : string := "00000000-0000-0000-0000-000000000009".
Definition unknown_text : string := "00000000-0000-0000-0000-0000000000ff".

Definition policy_request : CreatePolicyRequest :=
  {| cp_name := "read-only"; cp_autonomy_tier := 1%Z;
     cp_allowed_tools := [("search", JBool true)];
     cp_allowed_data_scopes := ["tickets"]; cp_rate_limits := None;
     cp_cost_limits := Some [("usd", JNum 5%Z)]; cp_guardrails := None |}.

Definition create_policy_rq : Request :=
  {| authorization := bearer1; route := POST_policies policy_request;
     uuid4 := pol; now := 104%N |}.



Definition bad_instance_request : CreateInstanceRequest :=
  {| ci_version_id := vid_text; ci_environment := "staging";
     ci_runtime_target := None; ci_policy_envelope_id := "none" |}.

Definition approved_store : Store := store_of (tables1 "approved").

Definition policy1 (id : UUID) (at_ : Timestamp) : Policy.row :=
  {| Policy.policy_id := id; Policy.tenant_id := tenant1;
     Policy.name := "read-only"; Policy.autonomy_tier := 1%Z;
     Policy.allowed_tools := JObj [("search", JBool true)];
     Policy.allowed_data_scopes := ["tickets"]; Policy.rate_limits := None;
     Policy.cost_limits := None; Policy.guardrails := None;
     Policy.created_at := at_ |}.

(** Tenant 1 owns two policy envelopes. *)
Definition policy_store : Store :=
  store_of (with_policies (fun _ => [policy1 pol 104%N; policy1 8%N 106%N])
              (tables1 "candidate")).

(** A token whose tenant claim carries a statement. *)
Definition injecting_rq : Request :=
  request (Some ("Bearer h." ++ delete_templates ++ ".s")%string) GET_templates.

End Sample.

(* ------------------------------------------------------------------ *)
(** ** Properties *)

Section Properties.
Context {L : Library}.

Ltac unfold_monad :=
  unfold bind, ret, raise, try_except, query, execute, set_local, commit, log in *.

(** *** The tenant dependency *)

Lemma uuid_parse_safe text u : uuid_parse text = Some u -> literal_safe text = true.
Proof.
  unfold uuid_parse. destruct (literal_safe text); [reflexivity | discriminate].
Qed.

Lemma uuid_UUID_session v db : snd (uuid_UUID v db) = db.
Proof.
  unfold uuid_UUID. destruct v; try reflexivity.
  destruct (uuid_parse s); reflexivity.
Qed.

Lemma uuid_UUID_returns v u db db' :
  uuid_UUID v db = (Return u, db') ->
  plain v = true /\ forall db'', uuid_UUID v db'' = (Return u, db'').
Proof.
  unfold uuid_UUID. destruct v; try discriminate.
  destruct (uuid_parse s) as [u'|] eqn:E; [|discriminate].
  unfold ret. intros H. injection H as -> _.
  split; [exact (uuid_parse_safe _ _ E) | reflexivity].
Qed.

Lemma split_not_nil sep s : split sep s <> [].
Proof.
  destruct s as [|c s]; cbn; [discriminate|].
  destruct (Ascii.eqb c sep); [discriminate|].
  destruct (split sep s); discriminate.
Qed.

Lemma prefix_cons c p s :
  prefix (String c p) s = true -> exists s', s = String c s' /\ prefix p s' = true.
Proof.
  destruct s as [|d s]; cbn; [discriminate|].
  destruct (ascii_dec c d) as [<-|]; [|discriminate].
  intros H. exists s. auto.
Qed.

(** After the check on the header, [split(" ")[1]] is defined. *)
Lemma bearer_token a :
  startswith "Bearer " a = true -> exists token, nth_error (split " " a) 1 = Some token.
Proof.
  unfold startswith. intros H.
  repeat (apply prefix_cons in H; destruct H as [? [-> H]]).
  cbn.
  match goal with
  | |- context [split " " ?rest] => destruct (split " " rest) as [|w ws] eqn:E
  end.
  - exfalso. exact (split_not_nil _ _ E).
  - exists w. reflexivity.
Qed.

(** With a tenant claim, the dependency is the statement, the commit and
    the constructor. *)
Lemma get_current_tenant_claim authorization v db :
  tenant_claim authorization = Some v ->
  get_current_tenant authorization db
  = (set_local v;; commit;; uuid_UUID v) db.
Proof.
  unfold tenant_claim, get_current_tenant.
  destruct authorization as [a|]; [|discriminate].
  destruct ((a =? "") || negb (startswith "Bearer " a)); [discriminate|].
  destruct (nth_error (split " " a) 1) as [token|]; [|discriminate].
  unfold bind at 1. unfold try_except.
  destruct (jwt_decode token) as [payload|e]; [|discriminate].
  cbv zeta.
  destruct (truthy (opt_json (dict_get "tenant_id" payload))); cbn [negb];
    [|discriminate].
  intros H. injection H as <-. reflexivity.
Qed.

(** Without one, it raises before any statement. *)
Lemma get_current_tenant_no_claim authorization db :
  tenant_claim authorization = None ->
  exists e,
    get_current_tenant authorization db = (Raise e, db)
    /\ (e = HTTPException 401 "Missing or invalid authorization" \/ token_failure e).
Proof.
  unfold tenant_claim, get_current_tenant.
  destruct authorization as [a|].
  2:{ intros _. eexists. split; [reflexivity | left; reflexivity]. }
  destruct (a =? ""); cbn [orb].
  { intros _. eexists. split; [reflexivity | left; reflexivity]. }
  destruct (startswith "Bearer " a) eqn:Hp; cbn [negb].
  2:{ intros _. eexists. split; [reflexivity | left; reflexivity]. }
  destruct (bearer_token a Hp) as [token ->].
  unfold bind at 1. unfold try_except.
  destruct (jwt_decode token) as [payload|caught] eqn:Hd.
  - cbv zeta.
    destruct (truthy (opt_json (dict_get "tenant_id" payload))); cbn [negb];
      [discriminate|].
    intros _. eexists. split; [reflexivity|]. right.
    exists (HTTPException 401 "Token missing tenant_id").
    split; [reflexivity | right; reflexivity].
  - intros _. eexists. split; [reflexivity|]. right.
    exists caught. split; [reflexivity|]. left. exists token. exact Hd.
Qed.

Lemma set_local_commit_plain {A} v (k : M A) db :
  plain v = true ->
  (set_local v;; commit;; k) db = k (authenticated_session v db).
Proof.
  intros Hp. unfold bind, set_local, commit, log. rewrite Hp. reflexivity.
Qed.

(** A credential that resolves carries a plain claim. *)
Lemma resolves_claim authorization tenant :
  resolves authorization tenant ->
  exists v,
    tenant_claim authorization = Some v /\ plain v = true
    /\ forall db, uuid_UUID v db = (Return tenant, db).
Proof.
  unfold resolves. intros H.
  destruct (tenant_claim authorization) as [v|] eqn:Hc.
  - exists v. split; [reflexivity|].
    rewrite (get_current_tenant_claim _ _ _ Hc) in H.
    unfold bind at 1 in H. unfold set_local in H.
    destruct (plain v) eqn:Hp.
    + split; [reflexivity|].
      unfold bind, commit, log in H. cbn in H.
      destruct (uuid_UUID v _) as [r db'] eqn:E. cbn in H. subst r.
      exact (proj2 (uuid_UUID_returns _ _ _ _ E)).
    + exfalso.
      destruct (interpolated_statements v _); [|discriminate H].
      unfold bind, commit, log in H. cbn in H.
      destruct (uuid_UUID v _) as [r db'] eqn:E. cbn in H. subst r.
      destruct (uuid_UUID_returns _ _ _ _ E) as [Hplain _]. congruence.
  - destruct (get_current_tenant_no_claim _ (SessionLocal
                {| tables := empty_tables; history := []; operations := [] |}) Hc)
      as [e [He _]].
    rewrite He in H. discriminate H.
Qed.

Lemma get_current_tenant_returns authorization tenant :
  resolves authorization tenant ->
  forall db, exists v,
    get_current_tenant authorization db = (Return tenant, authenticated_session v db).
Proof.
  intros H db. destruct (resolves_claim _ _ H) as [v [Hc [Hp Hu]]].
  exists v. rewrite (get_current_tenant_claim _ _ _ Hc).
  rewrite (set_local_commit_plain v _ db Hp). apply Hu.
Qed.

Lemma get_current_tenant_rejects authorization :
  rejected_credential authorization ->
  forall db, exists detail,
    get_current_tenant authorization db = (Raise (HTTPException 401 detail), db).
Proof.
  intros H db. unfold get_current_tenant.
  destruct H as [ | a [->|Hp] | a token e Hp Ht Hd | a token payload Hp Ht Hd Hn ].
  - eexists; reflexivity.
  - eexists; reflexivity.
  - rewrite Hp, orb_true_r. eexists; reflexivity.
  - assert (Ha : (a =? "") = false).
    { destruct (String.eqb_spec a ""); [subst; discriminate Hp | reflexivity]. }
    rewrite Ha, Hp, Ht. unfold_monad. rewrite Hd. eexists; reflexivity.
  - assert (Ha : (a =? "") = false).
    { destruct (String.eqb_spec a ""); [subst; discriminate Hp | reflexivity]. }
    rewrite Ha, Hp, Ht. unfold_monad. rewrite Hd. cbn. rewrite Hn. cbn.
    eexists; reflexivity.
Qed.

(** X27: the setting written for row security is no longer in force
    when the route's function starts: in the session the dependency
    returns, [app.current_tenant] is unset. *)
Lemma get_current_tenant_drops_setting authorization tenant db db' :
  get_current_tenant authorization db = (Return tenant, db') ->
  current_tenant db' = None.
Proof.
  intros H.
  destruct (tenant_claim authorization) as [v|] eqn:Hc.
  - rewrite (get_current_tenant_claim _ _ _ Hc) in H.
    unfold bind at 1 in H. unfold set_local in H.
    assert (Hk : forall d, (commit;; uuid_UUID v) d = (Return tenant, db') ->
                           current_tenant db' = None).
    { intros d Hd. unfold bind, commit, log in Hd. cbn in Hd.
      pose proof (uuid_UUID_session v
        {| committed := working d; working := working d; current_tenant := None;
           commits := commits d ++ [working d]; sent := sent d ++ [Commit] |}) as Hs.
      rewrite Hd in Hs. cbn in Hs. subst db'. reflexivity. }
    destruct (plain v); [exact (Hk _ H)|].
    destruct (interpolated_statements v _); [exact (Hk _ H) | discriminate H].
  - destruct (get_current_tenant_no_claim _ db Hc) as [e [He _]].
    rewrite He in H. discriminate H.
Qed.

(** A request with a resolved credential runs the route's function on the
    session the dependency left. *)
Lemma handle_resolved rq tenant st :
  requires_tenant (route rq) = true ->
  resolves (authorization rq) tenant ->
  exists v,
    handle rq st =
    (fst (endpoint rq tenant (authenticated_session v (SessionLocal st))),
     close (snd (endpoint rq tenant (authenticated_session v (SessionLocal st))))).
Proof.
  intros Hr Ha. unfold handle, run, app. rewrite Hr.
  destruct (get_current_tenant_returns _ _ Ha (SessionLocal st)) as [v Hv].
  exists v. unfold bind. rewrite Hv.
  destruct (endpoint rq tenant _); reflexivity.
Qed.

(** C5: a request to a route that depends on the tenant, with a credential
    that is missing, malformed (not a bearer credential, or a token the
    decoder refuses) or whose claims carry no tenant identifier, is
    answered with a 401 HTTPException, and the store is as it was: its
    tables, its committed states and the list of operations sent to it. *)
Theorem unauthenticated_before_store_access rq st :
  requires_tenant (route rq) = true ->
  rejected_credential (authorization rq) ->
  exists detail,
    handle rq st = (Raise (HTTPException 401 detail), st).
Proof.
  intros Hr Hbad. unfold handle, run, app. rewrite Hr.
  destruct (get_current_tenant_rejects _ Hbad (SessionLocal st)) as [d Hd].
  exists d. unfold bind. rewrite Hd.
  destruct st; reflexivity.
Qed.

(** *** Lists and selections *)

Lemma insert_sorted_not_nil {A} (before : A -> A -> bool) x l :
  insert_sorted before x l <> [].
Proof. destruct l as [|y l]; cbn; [|destruct (before y x)]; discriminate. Qed.

Lemma order_by_nil {A} (before : A -> A -> bool) l :
  order_by before l = [] <-> l = [].
Proof.
  split; [|intros ->; reflexivity].
  destruct l as [|x l]; [reflexivity|]. cbn.
  intros H. exfalso. exact (insert_sorted_not_nil _ _ _ H).
Qed.

Lemma filter_nil_existsb {A} (p : A -> bool) l :
  filter p l = [] <-> existsb p l = false.
Proof.
  induction l as [|x l IH]; cbn; [tauto|].
  destruct (p x); cbn; [split; discriminate | exact IH].
Qed.

Lemma select_passed_run_none vid t :
  select_passed_run vid t = None <-> has_passed_run vid t = false.
Proof.
  unfold select_passed_run, has_passed_run.
  rewrite <- filter_nil_existsb.
  rewrite <- (order_by_nil (desc_nulls_first EvaluationRun.completed_at)).
  destruct (order_by _ _) as [|r rs]; cbn; split; congruence.
Qed.

Lemma select_release_status_updated vid t :
  select_release_status vid (update_release_status vid t)
  = option_map (fun _ => "approved") (select_release_status vid t).
Proof.
  unfold select_release_status, select_version, update_release_status. cbn.
  induction (agent_versions t) as [|r rs IH]; [reflexivity|]. cbn.
  destruct (Version.version_id r =? vid)%N eqn:E; cbn.
  - rewrite E. reflexivity.
  - rewrite E. exact IH.
Qed.

(** *** Promotion *)

(** What a promotion request does, by the status read and the runs
    found: the two refusals leave the tables alone; past them the status
    update is committed and the INSERT of the event, which binds the
    payload dict, raises in the driver. *)
Lemma handle_promote rq tenant version_id vid st :
  route rq = POST_version_promote version_id ->
  resolves (authorization rq) tenant ->
  uuid_parse version_id = Some vid ->
  exists ops,
    handle rq st =
    if candidate vid (tables st) then
      if has_passed_run vid (tables st) then
        (Raise driver_refuses,
         {| tables := update_release_status vid (tables st);
            history := (history st ++ [tables st])
                         ++ [update_release_status vid (tables st)];
            operations := operations st ++ ops |})
      else
        (Raise gate_failed,
         {| tables := tables st; history := history st ++ [tables st];
            operations := operations st ++ ops |})
    else
      (Raise precondition_failed,
       {| tables := tables st; history := history st ++ [tables st];
          operations := operations st ++ ops |}).
Proof.
  intros Hroute Hres Hparse.
  assert (Hreq : requires_tenant (route rq) = true) by (rewrite Hroute; reflexivity).
  destruct (handle_resolved rq tenant st Hreq Hres) as [v ->].
  unfold endpoint. rewrite Hroute.
  unfold promote_version, uuid_UUID. rewrite Hparse.
  unfold candidate. unfold_monad. cbn.
  destruct (select_release_status vid (tables st)) as [status|]; cbn.
  - destruct (status =? "candidate"); cbn.
    + destruct (select_passed_run vid (tables st)) as [run|] eqn:Erun.
      * destruct (has_passed_run vid (tables st)) eqn:Ehas.
        -- cbn. eexists. unfold close. cbn.
           repeat rewrite <- app_assoc. reflexivity.
        -- apply select_passed_run_none in Ehas. congruence.
      * apply select_passed_run_none in Erun. rewrite Erun.
        eexists. unfold close. cbn. repeat rewrite <- app_assoc. reflexivity.
    + eexists. unfold close. cbn. repeat rewrite <- app_assoc. reflexivity.
  - eexists. unfold close. cbn. repeat rewrite <- app_assoc. reflexivity.
Qed.

Lemma candidate_true vid t :
  candidate vid t = true <-> select_release_status vid t = Some "candidate".
Proof.
  unfold candidate. destruct (select_release_status vid t) as [s|].
  - rewrite String.eqb_eq. split; congruence.
  - split; discriminate.
Qed.

Lemma candidate_false vid t :
  candidate vid t = false <-> select_release_status vid t <> Some "candidate".
Proof.
  rewrite <- candidate_true. destruct (candidate vid t); split; congruence.
Qed.

(** The row the status is read from. *)
Lemma select_release_status_row vid t status :
  select_release_status vid t = Some status ->
  exists r, In r (agent_versions t) /\ Version.version_id r = vid
            /\ Version.release_status r = status.
Proof.
  unfold select_release_status, select_version, fetchone.
  destruct (filter _ (agent_versions t)) as [|r rs] eqn:E; [discriminate|].
  cbn. intros H. injection H as <-.
  assert (Hin : In r (filter (fun r => (Version.version_id r =? vid)%N) (agent_versions t)))
    by (rewrite E; left; reflexivity).
  apply filter_In in Hin. destruct Hin as [Hin Hid].
  apply N.eqb_eq in Hid. exists r. auto.
Qed.

Lemma updated_rows_approved vid t r :
  In r (agent_versions (update_release_status vid t)) ->
  Version.version_id r = vid ->
  Version.release_status r = "approved".
Proof.
  unfold update_release_status. cbn. intros Hin Hid.
  apply in_map_iff in Hin. destruct Hin as [r0 [Hr _]].
  destruct (Version.version_id r0 =? vid)%N eqn:E.
  - subst r. reflexivity.
  - subst r0. apply N.eqb_neq in E. contradiction.
Qed.

(** X15: a promotion that is refused leaves the tables alone.  When the
    status read is not candidate (no row carries the id, or the row is in
    another status) the request fails with 400 and the message naming the
    required status; when it is candidate and no passed run exists, with
    400 and the message of the missing evaluation; in both cases every
    table is as it was. *)
Theorem promotion_refused_leaves_the_tables rq tenant version_id vid st :
  route rq = POST_version_promote version_id ->
  resolves (authorization rq) tenant ->
  uuid_parse version_id = Some vid ->
  (select_release_status vid (tables st) <> Some "candidate" ->
     fst (handle rq st) = Raise precondition_failed
     /\ tables (snd (handle rq st)) = tables st)
  /\ (select_release_status vid (tables st) = Some "candidate" ->
      has_passed_run vid (tables st) = false ->
      fst (handle rq st) = Raise gate_failed
      /\ tables (snd (handle rq st)) = tables st).
Proof.
  intros Hroute Hres Hparse.
  destruct (handle_promote rq tenant version_id vid st Hroute Hres Hparse) as [ops ->].
  split.
  - intros Hc. apply candidate_false in Hc. rewrite Hc. split; reflexivity.
  - intros Hc Hrun. apply candidate_true in Hc. rewrite Hc, Hrun.
    split; reflexivity.
Qed.

(** X26: the promotion of a candidate version with a passed run does not
    go through.  The status update is committed, then the INSERT of the
    event raises in the driver, which has no adapter for the payload dict:
    the request fails with an uncaught ProgrammingError, the version is
    left approved and no event is recorded. *)
Theorem promotion_of_candidate_commits_then_raises rq tenant version_id vid st :
  route rq = POST_version_promote version_id ->
  resolves (authorization rq) tenant ->
  uuid_parse version_id = Some vid ->
  select_release_status vid (tables st) = Some "candidate" ->
  has_passed_run vid (tables st) = true ->
  fst (handle rq st) = Raise driver_refuses
  /\ tables (snd (handle rq st)) = update_release_status vid (tables st)
  /\ select_release_status vid (tables (snd (handle rq st))) = Some "approved"
  /\ events (tables (snd (handle rq st))) = events (tables st)
  /\ history (snd (handle rq st))
     = history st ++ [tables st; update_release_status vid (tables st)].
Proof.
  intros Hroute Hres Hparse Hc Hrun.
  destruct (handle_promote rq tenant version_id vid st Hroute Hres Hparse) as [ops ->].
  pose proof Hc as Hcand. apply candidate_true in Hcand. rewrite Hcand, Hrun.
  cbn [fst snd tables history].
  split; [reflexivity|]. split; [reflexivity|]. split.
  - rewrite select_release_status_updated, Hc. reflexivity.
  - split; [reflexivity|]. rewrite <- app_assoc. reflexivity.
Qed.

(** *** One call at a time, and two in a row *)

(** Six steps of the machine are the function [promote_version]. *)
Lemma promote_steps_run version_id tenant st :
  promote_steps 6 version_id tenant start st
  = ({| pc := finished (fst (run (promote_version version_id tenant) st));
        uncommitted := [] |},
     snd (run (promote_version version_id tenant) st)).
Proof.
  destruct st as [t h ops].
  unfold run, promote_version, uuid_UUID, promote_steps, promote_step, start.
  unfold_monad. cbn.
  destruct (uuid_parse version_id) as [vid|]; cbn; [|reflexivity].
  unfold view. cbn.
  destruct (select_release_status vid t) as [status|]; cbn; [|reflexivity].
  destruct (status =? "candidate"); cbn; [|reflexivity].
  destruct (select_passed_run vid t) as [found|]; cbn; reflexivity.
Qed.

Lemma candidate_after_update vid t :
  candidate vid (update_release_status vid t) = false.
Proof.
  unfold candidate. rewrite select_release_status_updated.
  destruct (select_release_status vid t); reflexivity.
Qed.

(** C7 (amended): for a candidate version with a passing evaluation, when
    two promotion calls run one after the other, the second fails with the
    precondition error and changes no table: the first has committed the
    status update before it ended. *)
Theorem two_promotions_in_a_row rq1 rq2 tenant1 tenant2 text1 text2 vid st :
  route rq1 = POST_version_promote text1 ->
  route rq2 = POST_version_promote text2 ->
  resolves (authorization rq1) tenant1 ->
  resolves (authorization rq2) tenant2 ->
  uuid_parse text1 = Some vid ->
  uuid_parse text2 = Some vid ->
  select_release_status vid (tables st) = Some "candidate" ->
  has_passed_run vid (tables st) = true ->
  let st1 := snd (handle rq1 st) in
  let st2 := snd (handle rq2 st1) in
  fst (handle rq2 st1) = Raise precondition_failed
  /\ tables st2 = tables st1.
Proof.
  intros Hr1 Hr2 Ha1 Ha2 Hp1 Hp2 Hc Hrun st1 st2.
  apply candidate_true in Hc.
  destruct (handle_promote rq2 tenant2 text2 vid st1 Hr2 Ha2 Hp2) as [ops2 H2].
  subst st2. rewrite H2. clear H2. subst st1.
  destruct (handle_promote rq1 tenant1 text1 vid st Hr1 Ha1 Hp1) as [ops1 ->].
  rewrite Hc, Hrun. cbn [fst snd tables].
  rewrite candidate_after_update. split; reflexivity.
Qed.

(** *** Instances *)

Lemma handle_update_instance rq tenant instance_id status iid st :
  route rq = PATCH_instance instance_id status ->
  resolves (authorization rq) tenant ->
  uuid_parse instance_id = Some iid ->
  fst (handle rq st)
    = Return (JObj [("instance_id", JStr instance_id); ("status", JStr status)])
  /\ tables (snd (handle rq st)) = update_instance_status status iid (tables st).
Proof.
  intros Hroute Hres Hparse.
  assert (Hreq : requires_tenant (route rq) = true) by (rewrite Hroute; reflexivity).
  destruct (handle_resolved rq tenant st Hreq Hres) as [v ->].
  unfold endpoint. rewrite Hroute.
  unfold update_instance, uuid_UUID. rewrite Hparse.
  unfold_monad. cbn. split; reflexivity.
Qed.



(** *** Failures *)

Lemma get_current_tenant_failures authorization db status_code detail db' :
  get_current_tenant authorization db = (Raise (HTTPException status_code detail), db') ->
  HTTPException status_code detail = HTTPException 401 "Missing or invalid authorization"
  \/ token_failure (HTTPException status_code detail).
Proof.
  intros H.
  destruct (tenant_claim authorization) as [v|] eqn:Hc.
  - exfalso. rewrite (get_current_tenant_claim _ _ _ Hc) in H.
    assert (Hk : forall d, (commit;; uuid_UUID v) d
                           <> (Raise (HTTPException status_code detail), db')).
    { intros d Hd. unfold bind, commit, log in Hd. cbn in Hd.
      unfold uuid_UUID in Hd. destruct v; try discriminate Hd.
      destruct (uuid_parse s); discriminate Hd. }
    unfold bind at 1 in H. unfold set_local in H.
    destruct (plain v); [exact (Hk _ H)|].
    destruct (interpolated_statements v _); [exact (Hk _ H) | discriminate H].
  - destruct (get_current_tenant_no_claim _ db Hc) as [e [He Hkind]].
    rewrite He in H. injection H as -> _. exact Hkind.
Qed.

Lemma endpoint_failures rq tenant db status_code detail db' :
  endpoint rq tenant db = (Raise (HTTPException status_code detail), db') ->
  In (HTTPException status_code detail) fixed_failures.
Proof.
  unfold endpoint.
  destruct (route rq) as [req| |template_id req|version_id|version_id|req|
                          |instance_id status|req| |policy_id|].
  - unfold create_template. unfold_monad. cbn. discriminate.
  - unfold list_templates. unfold_monad. discriminate.
  - unfold create_version, uuid_UUID.
    destruct (uuid_parse template_id); unfold_monad; cbn; discriminate.
  - unfold get_version, uuid_UUID.
    destruct (uuid_parse version_id) as [vid|]; unfold_monad; [|discriminate].
    destruct (select_version vid (working db)); [discriminate|].
    intros H; injection H as <- <- _. cbn. auto.
  - unfold promote_version, uuid_UUID.
    destruct (uuid_parse version_id) as [vid|]; unfold_monad; [|discriminate].
    cbn. destruct (select_release_status vid (working db)) as [status|].
    + destruct (negb (status =? "candidate")).
      * intros H; injection H as <- <- _. cbn. auto.
      * cbn. destruct (select_passed_run vid (working db)); [discriminate|].
        intros H; injection H as <- <- _. cbn. auto 6.
    + intros H; injection H as <- <- _. cbn. auto.
  - unfold create_instance, uuid_UUID.
    destruct (uuid_parse (ci_version_id req)); unfold_monad; [|discriminate].
    destruct (uuid_parse (ci_policy_envelope_id req)); cbn; discriminate.
  - unfold list_instances. unfold_monad. discriminate.
  - unfold update_instance, uuid_UUID.
    destruct (uuid_parse instance_id); unfold_monad; cbn; discriminate.
  - unfold create_policy. unfold_monad. cbn. discriminate.
  - unfold list_policies. unfold_monad. discriminate.
  - unfold get_policy, uuid_UUID.
    destruct (uuid_parse policy_id) as [pid|]; unfold_monad; [|discriminate].
    destruct (select_policy pid (working db)); [discriminate|].
    intros H; injection H as <- <- _. cbn. auto.
  - unfold health, ret. discriminate.
Qed.

(** C9 (amended): every failure a request raises as an HTTPException is
    one of two kinds.  Either it carries one of five fixed messages (401
    missing or invalid authorization, 404 version or policy not found, 400
    wrong status, 400 no passing evaluation); or it is the 401 of a token
    failure, whose message is Invalid token followed by the text of the
    exception caught while decoding. *)
Theorem failures_of_a_request rq st status_code detail :
  fst (handle rq st) = Raise (HTTPException status_code detail) ->
  In (HTTPException status_code detail) fixed_failures
  \/ token_failure (HTTPException status_code detail).
Proof.
  unfold handle, run, app.
  destruct (requires_tenant (route rq)).
  - unfold bind.
    destruct (get_current_tenant (authorization rq) (SessionLocal st))
      as [[tenant|e'] db'] eqn:Hauth.
    + destruct (endpoint rq tenant db') as [[body|e''] db''] eqn:Hend; cbn;
        [discriminate|].
      intros H; injection H as ->.
      left. exact (endpoint_failures _ _ _ _ _ _ Hend).
    + cbn. intros H; injection H as ->.
      destruct (get_current_tenant_failures _ _ _ _ _ Hauth) as [-> | Htoken];
        [left; left; reflexivity | right; exact Htoken].
  - cbn. discriminate.
Qed.

(** *** Versions under a template *)

(** C6 (amended): a create-version request is never answered NotFound,
    whatever the template id names and whatever the store holds: the
    route looks up no template. *)
Theorem create_version_never_not_found rq template_id req st detail :
  route rq = POST_template_versions template_id req ->
  fst (handle rq st) <> Raise (HTTPException 404 detail).
Proof.
  intros Hroute. unfold handle, run, app. rewrite Hroute. cbn [requires_tenant].
  unfold bind.
  destruct (get_current_tenant (authorization rq) (SessionLocal st))
    as [[tenant|e'] db'] eqn:Hauth.
  - unfold endpoint. rewrite Hroute. unfold create_version, uuid_UUID.
    destruct (uuid_parse template_id); unfold_monad; cbn; discriminate.
  - cbn. intros H; injection H as ->.
    destruct (get_current_tenant_failures _ _ _ _ _ Hauth)
      as [Hf | [caught [Hc _]]]; discriminate.
Qed.

(** *** Tenants *)

(** X25: the answer of a read (the three listings and the two gets)
    does not depend on the tenant the credential resolved to. *)
Lemma reads_ignore_tenant rq1 rq2 tenant1 tenant2 st :
  route rq1 = route rq2 ->
  match route rq1 with
  | GET_templates | GET_version _ | GET_instances | GET_policies | GET_policy _ => True
  | _ => False
  end ->
  resolves (authorization rq1) tenant1 ->
  resolves (authorization rq2) tenant2 ->
  fst (handle rq1 st) = fst (handle rq2 st).
Proof.
  intros Hroute Hread Ha1 Ha2.
  assert (Hreq1 : requires_tenant (route rq1) = true)
    by (destruct (route rq1); try reflexivity; contradiction).
  assert (Hreq2 : requires_tenant (route rq2) = true) by (rewrite <- Hroute; exact Hreq1).
  destruct (handle_resolved rq1 tenant1 st Hreq1 Ha1) as [v1 ->].
  destruct (handle_resolved rq2 tenant2 st Hreq2 Ha2) as [v2 ->].
  unfold endpoint. rewrite <- Hroute.
  destruct (route rq1); try contradiction; cbn [fst].
  - reflexivity.
  - unfold get_version, uuid_UUID.
    destruct (uuid_parse version_id) as [vid|]; [|reflexivity].
    unfold_monad. cbn. destruct (select_version vid (tables st)); reflexivity.
  - reflexivity.
  - reflexivity.
  - unfold get_policy, uuid_UUID.
    destruct (uuid_parse policy_id) as [pid|]; [|reflexivity].
    unfold_monad. cbn. destruct (select_policy pid (tables st)); reflexivity.
Qed.

(** *** What the credential must be, and what a tenant claim that is no
    UUID does *)

Lemma resolves_intro a token payload s tenant :
  startswith "Bearer " a = true ->
  nth_error (split " " a) 1 = Some token ->
  jwt_decode token = Return payload ->
  dict_get "tenant_id" payload = Some (JStr s) ->
  s <> "" ->
  uuid_parse s = Some tenant ->
  resolves (Some a) tenant.
Proof.
  intros Hp Ht Hd Hg Hs Hu.
  assert (Hclaim : tenant_claim (Some a) = Some (JStr s)).
  { unfold tenant_claim.
    assert (Ha : (a =? "") = false).
    { destruct (String.eqb_spec a ""); [subst; discriminate Hp | reflexivity]. }
    rewrite Ha, Hp, Ht, Hd, Hg. cbn.
    destruct (String.eqb_spec s ""); [contradiction | reflexivity]. }
  unfold resolves. rewrite (get_current_tenant_claim _ _ _ Hclaim).
  rewrite set_local_commit_plain by exact (uuid_parse_safe _ _ Hu).
  unfold uuid_UUID. rewrite Hu. reflexivity.
Qed.


(** A request whose credential carries no SQL hands the route the tables
    it found, or ends in the dependency with the tables it found. *)
Lemma get_current_tenant_tables authorization st r db :
  injection_free authorization = true ->
  get_current_tenant authorization (SessionLocal st) = (r, db) ->
  committed db = tables st /\ working db = tables st.
Proof.
  unfold injection_free. intros Hfree H.
  destruct (tenant_claim authorization) as [v|] eqn:Hc.
  - rewrite (get_current_tenant_claim _ _ _ Hc) in H.
    rewrite (set_local_commit_plain v _ _ Hfree) in H.
    pose proof (uuid_UUID_session v (authenticated_session v (SessionLocal st))) as Hs.
    rewrite H in Hs. cbn in Hs. subst db. split; reflexivity.
  - destruct (get_current_tenant_no_claim _ (SessionLocal st) Hc) as [e [He _]].
    rewrite He in H. injection H as _ <-. split; reflexivity.
Qed.

Lemma resolves_injection_free authorization tenant :
  resolves authorization tenant -> injection_free authorization = true.
Proof.
  intros H. destruct (resolves_claim _ _ H) as [v [Hc [Hp _]]].
  unfold injection_free. rewrite Hc. exact Hp.
Qed.

End Properties.

(* ------------------------------------------------------------------ *)
(** ** Registries, listings and what no request does *)

Section Lifecycle.
Context {L : Library}.

Ltac unfold_monad :=
  unfold bind, ret, raise, try_except, query, execute, set_local, commit, log in *.

(** *** ORDER BY *)

Lemma insert_sorted_perm {A} (before : A -> A -> bool) x l :
  Permutation (insert_sorted before x l) (x :: l).
Proof.
  induction l as [|y l IH]; cbn; [reflexivity|].
  destruct (before y x); [|reflexivity].
  rewrite IH. apply perm_swap.
Qed.

Lemma order_by_perm {A} (before : A -> A -> bool) l :
  Permutation (order_by before l) l.
Proof.
  induction l as [|x l IH]; cbn; [reflexivity|].
  rewrite insert_sorted_perm. apply perm_skip. exact IH.
Qed.

Lemma insert_sorted_desc {A} (key : A -> N) x l :
  StronglySorted (fun a b => (key b <= key a)%N) l ->
  StronglySorted (fun a b => (key b <= key a)%N) (insert_sorted (desc key) x l).
Proof.
  induction 1 as [|y l Hs IH Hall]; cbn.
  - constructor; constructor.
  - unfold desc at 1. destruct (key x <? key y)%N eqn:E.
    + apply N.ltb_lt in E. constructor; [exact IH|].
      apply (Permutation_Forall (Permutation_sym (insert_sorted_perm _ x l))).
      constructor; [lia | exact Hall].
    + apply N.ltb_ge in E. constructor.
      * constructor; assumption.
      * constructor; [exact E|].
        eapply Forall_impl; [|exact Hall]. cbn. intros z Hz. lia.
Qed.

Lemma order_by_desc {A} (key : A -> N) l :
  StronglySorted (fun a b => (key b <= key a)%N) (order_by (desc key) l).
Proof.
  induction l as [|x l IH]; cbn; [constructor|].
  apply insert_sorted_desc. exact IH.
Qed.

(** *** Listings *)

(** X1: the template listing answers with one entry for every template
    row, each row once, ordered by created_at with the newest first, and
    leaves the tables as they were. *)
Theorem list_templates_newest_first rq tenant st :
  route rq = GET_templates ->
  resolves (authorization rq) tenant ->
  exists rows,
    fst (handle rq st) = Return (JObj [("templates", JArr (map template_entry rows))])
    /\ Permutation rows (agent_templates (tables st))
    /\ StronglySorted
         (fun a b => (Template.created_at b <= Template.created_at a)%N) rows
    /\ tables (snd (handle rq st)) = tables st.
Proof.
  intros Hroute Hres.
  assert (Hreq : requires_tenant (route rq) = true) by (rewrite Hroute; reflexivity).
  destruct (handle_resolved rq tenant st Hreq Hres) as [v ->].
  unfold endpoint. rewrite Hroute.
  exists (order_by (desc Template.created_at) (agent_templates (tables st))).
  split; [reflexivity|]. split; [apply order_by_perm|].
  split; [apply order_by_desc | reflexivity].
Qed.

(** X2: the policy listing answers with one entry for every policy row,
    each row once, ordered by created_at with the newest first, and leaves
    the tables as they were. *)
Theorem list_policies_newest_first rq tenant st :
  route rq = GET_policies ->
  resolves (authorization rq) tenant ->
  exists rows,
    fst (handle rq st) = Return (JObj [("policies", JArr (map policy_entry rows))])
    /\ Permutation rows (policy_envelopes (tables st))
    /\ StronglySorted
         (fun a b => (Policy.created_at b <= Policy.created_at a)%N) rows
    /\ tables (snd (handle rq st)) = tables st.
Proof.
  intros Hroute Hres.
  assert (Hreq : requires_tenant (route rq) = true) by (rewrite Hroute; reflexivity).
  destruct (handle_resolved rq tenant st Hreq Hres) as [v ->].
  unfold endpoint. rewrite Hroute.
  exists (order_by (desc Policy.created_at) (policy_envelopes (tables st))).
  split; [reflexivity|]. split; [apply order_by_perm|].
  split; [apply order_by_desc | reflexivity].
Qed.

Lemma in_select_instances i v tp t :
  In (i, v, tp) (select_instances t)
  <-> (In i (agent_instances t) /\ In v (agent_versions t)
       /\ In tp (agent_templates t)
       /\ Instance.version_id i = Version.version_id v
       /\ Version.template_id v = Template.template_id tp).
Proof.
  unfold select_instances.
  split.
  - intros H. apply (Permutation_in _ (order_by_perm _ _)) in H.
    apply in_flat_map in H. destruct H as [i' [Hi H]].
    apply in_flat_map in H. destruct H as [v' [Hv H]].
    destruct (Instance.version_id i' =? Version.version_id v')%N eqn:E1; [|destruct H].
    apply in_flat_map in H. destruct H as [tp' [Ht H]].
    destruct (Version.template_id v' =? Template.template_id tp')%N eqn:E2; [|destruct H].
    destruct H as [H | []]. injection H as -> -> ->.
    apply N.eqb_eq in E1, E2. auto.
  - intros [Hi [Hv [Ht [E1 E2]]]].
    apply (Permutation_in _ (Permutation_sym (order_by_perm _ _))).
    apply in_flat_map. exists i. split; [exact Hi|].
    apply in_flat_map. exists v. split; [exact Hv|].
    apply N.eqb_eq in E1. rewrite E1.
    apply in_flat_map. exists tp. split; [exact Ht|].
    apply N.eqb_eq in E2. rewrite E2. left; reflexivity.
Qed.

(** X3: the instance listing is the join of the three tables: an entry
    is listed for an instance row, a version row and a template row
    exactly when the instance names that version and the version names
    that template; the entries come newest instance first, and the tables
    are left as they were. *)
Theorem list_instances_is_the_join rq tenant st :
  route rq = GET_instances ->
  resolves (authorization rq) tenant ->
  exists rows,
    fst (handle rq st) = Return (JObj [("instances", JArr (map instance_entry rows))])
    /\ (forall i v tp,
          In (i, v, tp) rows
          <-> (In i (agent_instances (tables st)) /\ In v (agent_versions (tables st))
               /\ In tp (agent_templates (tables st))
               /\ Instance.version_id i = Version.version_id v
               /\ Version.template_id v = Template.template_id tp))
    /\ StronglySorted
         (fun a b => (Instance.created_at (fst (fst b))
                      <= Instance.created_at (fst (fst a)))%N) rows
    /\ tables (snd (handle rq st)) = tables st.
Proof.
  intros Hroute Hres.
  assert (Hreq : requires_tenant (route rq) = true) by (rewrite Hroute; reflexivity).
  destruct (handle_resolved rq tenant st Hreq Hres) as [v ->].
  unfold endpoint. rewrite Hroute.
  exists (select_instances (tables st)).
  split; [reflexivity|]. split; [intros; apply in_select_instances|].
  split; [|reflexivity].
  unfold select_instances.
  apply (order_by_desc (fun r : Instance.row * Version.row * Template.row =>
                          Instance.created_at (fst (fst r)))).
Qed.

(** *** The one write of a request *)

Lemma endpoint_effect rq tenant db :
  working db = committed db ->
  Effect rq (committed db) (committed (snd (endpoint rq tenant db))).
Proof.
  intros Hw. unfold endpoint.
  destruct (route rq) as [req| |template_id req|version_id|version_id|req|
                          |instance_id status|req| |policy_id|] eqn:Hroute.
  - unfold create_template. unfold_monad. cbn. rewrite Hw.
    exact (effect_create_template rq _ req tenant Hroute).
  - constructor.
  - unfold create_version, uuid_UUID.
    destruct (uuid_parse template_id) as [tpl|]; unfold_monad; cbn; constructor.
  - unfold get_version, uuid_UUID.
    destruct (uuid_parse version_id) as [vid|]; unfold_monad; cbn; [|constructor].
    destruct (select_version vid (working db)); constructor.
  - unfold promote_version, uuid_UUID.
    destruct (uuid_parse version_id) as [vid|] eqn:Hp; unfold_monad; cbn;
      [|constructor].
    destruct (select_release_status vid (working db)) as [status|] eqn:Hs;
      [|constructor].
    destruct (status =? "candidate") eqn:Hc; cbn; [|constructor].
    destruct (select_passed_run vid (working db)) as [found|] eqn:Hrun; cbn;
      [|constructor].
    rewrite Hw in *.
    apply (effect_promote rq _ version_id vid Hroute Hp).
    + unfold candidate. rewrite Hs. exact Hc.
    + destruct (has_passed_run vid (committed db)) eqn:Hhas; [reflexivity|].
      apply select_passed_run_none in Hhas. congruence.
  - unfold create_instance, uuid_UUID.
    destruct (uuid_parse (ci_version_id req)) as [ver|] eqn:Hv; unfold_monad; cbn;
      [|constructor].
    destruct (uuid_parse (ci_policy_envelope_id req)) as [pol|] eqn:Hpol; cbn;
      [|constructor].
    rewrite Hw. exact (effect_create_instance rq _ req ver pol tenant Hroute Hv Hpol).
  - constructor.
  - unfold update_instance, uuid_UUID.
    destruct (uuid_parse instance_id) as [iid|] eqn:Hp; unfold_monad; cbn;
      [|constructor].
    rewrite Hw. exact (effect_update_instance rq _ instance_id status iid Hroute Hp).
  - unfold create_policy. unfold_monad. cbn. constructor.
  - constructor.
  - unfold get_policy, uuid_UUID.
    destruct (uuid_parse policy_id) as [pid|]; unfold_monad; cbn; [|constructor].
    destruct (select_policy pid (working db)); constructor.
  - constructor.
Qed.

Lemma handle_effect rq st :
  injection_free (authorization rq) = true ->
  Effect rq (tables st) (tables (snd (handle rq st))).
Proof.
  intros Hfree. unfold handle, run, app.
  destruct (requires_tenant (route rq)); [|constructor].
  unfold bind.
  destruct (get_current_tenant (authorization rq) (SessionLocal st))
    as [[tenant|e] db] eqn:Hauth;
    destruct (get_current_tenant_tables _ _ _ _ Hfree Hauth) as [Hc Hw].
  - pose proof (endpoint_effect rq tenant db) as H.
    rewrite Hc, Hw in H. specialize (H eq_refl).
    destruct (endpoint rq tenant db) as [r db']. exact H.
  - cbn. rewrite Hc. constructor.
Qed.

Lemma Forall2_version_kept_refl l : Forall2 version_kept l l.
Proof. induction l; constructor; [left; reflexivity | assumption]. Qed.

Lemma Forall2_instance_kept_refl l : Forall2 instance_kept l l.
Proof.
  induction l as [|r l IH]; constructor; [|exact IH].
  exists (Instance.status r). destruct r; reflexivity.
Qed.

(** *** What no request does *)

(** X4: no request records an event.  Whatever the route and the outcome
    of a request whose credential carries no SQL, the events table is as
    it was: the one INSERT on it binds a dict, which the driver
    refuses. *)
Theorem events_never_written rq st :
  injection_free (authorization rq) = true ->
  events (tables (snd (handle rq st))) = events (tables st).
Proof. intros Hfree. destruct (handle_effect rq st Hfree); reflexivity. Qed.

(** X5: no request whose credential carries no SQL writes the evaluation
    runs. *)
Theorem evaluation_runs_never_written rq st :
  injection_free (authorization rq) = true ->
  evaluation_runs (tables (snd (handle rq st))) = evaluation_runs (tables st).
Proof. intros Hfree. destruct (handle_effect rq st Hfree); reflexivity. Qed.

(** X6: no request whose credential carries no SQL adds, removes or
    rewrites a version.  The version rows are the rows it found, in order,
    each unchanged or changed in its release_status alone, to
    approved. *)
Theorem versions_kept rq st :
  injection_free (authorization rq) = true ->
  Forall2 version_kept (agent_versions (tables st))
    (agent_versions (tables (snd (handle rq st)))).
Proof.
  intros Hfree.
  destruct (handle_effect rq st Hfree); try apply Forall2_version_kept_refl.
  cbn. induction (agent_versions (tables st)) as [|r l IH]; cbn; constructor;
    [|exact IH].
  destruct (Version.version_id r =? vid)%N; [right | left]; reflexivity.
Qed.

(** X7: no request whose credential carries no SQL removes an instance
    or changes anything of it but its status.  The instance rows it found
    are still there, in order; at most one row is added, in status
    provisioning. *)
Theorem instances_kept rq st :
  injection_free (authorization rq) = true ->
  exists kept added,
    agent_instances (tables (snd (handle rq st))) = kept ++ added
    /\ Forall2 instance_kept (agent_instances (tables st)) kept
    /\ Forall (fun r => Instance.status r = "provisioning") added
    /\ length added <= 1.
Proof.
  intros Hfree.
  destruct (handle_effect rq st Hfree);
    try (exists (agent_instances (tables st)), []; cbn; rewrite app_nil_r;
         repeat split; [apply Forall2_instance_kept_refl | constructor | lia]).
  - eexists _, [_]. cbn. repeat split.
    + apply Forall2_instance_kept_refl.
    + repeat constructor.
    + lia.
  - eexists _, []. cbn. rewrite app_nil_r. repeat split.
    + induction (agent_instances (tables st)) as [|r l IH]; cbn; constructor;
        [|exact IH].
      destruct (Instance.instance_id r =? iid)%N.
      * exists status. reflexivity.
      * exists (Instance.status r). destruct r; reflexivity.
    + constructor.
    + lia.
Qed.

(** X8: templates are never changed once created, and policy envelopes
    are never written.  After a request whose credential carries no SQL
    the template rows it found are still there, unchanged and in order,
    with at most one row added, and only by the create-template route;
    the policy envelopes are as they were. *)
Theorem templates_append_only_policies_unchanged rq st :
  injection_free (authorization rq) = true ->
  exists new_templates,
    agent_templates (tables (snd (handle rq st)))
      = agent_templates (tables st) ++ new_templates
    /\ length new_templates <= 1
    /\ (new_templates <> [] -> exists req, route rq = POST_templates req)
    /\ policy_envelopes (tables (snd (handle rq st)))
       = policy_envelopes (tables st).
Proof.
  intros Hfree.
  destruct (handle_effect rq st Hfree);
    try (exists []; cbn; rewrite !app_nil_r;
         repeat split; [lia | congruence]).
  eexists [_]. cbn. repeat split; [lia | intros _; eexists; eassumption].
Qed.


(** *** The release status over sequences of requests *)

Lemma handle_preserves_no_candidate rq st :
  injection_free (authorization rq) = true ->
  no_candidate (tables st) -> no_candidate (tables (snd (handle rq st))).
Proof.
  unfold no_candidate. intros Hfree Hno.
  destruct (handle_effect rq st Hfree); try exact Hno; cbn.
  apply Forall_map. eapply Forall_impl; [|exact Hno]. cbn. intros r Hr.
  destruct (Version.version_id r =? vid)%N; [discriminate | exact Hr].
Qed.

(** X10: no route makes a version a candidate.  From a store without a
    candidate version, and so from the empty store, no sequence of
    requests whose credentials carry no SQL leads to a state with
    one. *)
Theorem no_route_to_candidate rqs st :
  no_candidate (tables st) ->
  Forall (fun rq => injection_free (authorization rq) = true) rqs ->
  no_candidate (tables (serve rqs st)).
Proof.
  unfold serve. intros Hno Hall. revert st Hno.
  induction Hall as [|rq rqs Hfree _ IH]; intros st Hno; cbn; [exact Hno|].
  apply IH. apply handle_preserves_no_candidate; assumption.
Qed.

Lemma approved_row_kept rq st n r :
  injection_free (authorization rq) = true ->
  nth_error (agent_versions (tables st)) n = Some r ->
  Version.release_status r = "approved" ->
  nth_error (agent_versions (tables (snd (handle rq st)))) n = Some r.
Proof.
  intros Hfree Hn Hst.
  destruct (handle_effect rq st Hfree); try exact Hn; cbn.
  rewrite nth_error_map, Hn. cbn.
  destruct (Version.version_id r =? vid)%N; [|reflexivity].
  destruct r; cbn in *; subst; reflexivity.
Qed.

(** X11: approved is final.  A version row that is approved is found
    unchanged, at its place, after any sequence of requests whose
    credentials carry no SQL. *)
Theorem approved_versions_never_change rqs st n r :
  nth_error (agent_versions (tables st)) n = Some r ->
  Version.release_status r = "approved" ->
  Forall (fun rq => injection_free (authorization rq) = true) rqs ->
  nth_error (agent_versions (tables (serve rqs st))) n = Some r.
Proof.
  unfold serve. intros Hn Hst Hall. revert st Hn.
  induction Hall as [|rq rqs Hfree _ IH]; intros st Hn; cbn; [exact Hn|].
  apply IH. apply approved_row_kept; assumption.
Qed.

(** *** Gets *)

Lemma fetchone_filter_none {A} (p : A -> bool) l :
  fetchone (filter p l) = None <-> (forall r, In r l -> p r = false).
Proof.
  unfold fetchone. induction l as [|x l IH]; cbn.
  - split; [intros _ r [] | reflexivity].
  - destruct (p x) eqn:E; cbn.
    + split; [discriminate|]. intros H. rewrite (H x (or_introl eq_refl)) in E.
      discriminate E.
    + rewrite IH. split.
      * intros H r [<- | Hr]; [exact E | exact (H r Hr)].
      * intros H r Hr. exact (H r (or_intror Hr)).
Qed.

Lemma fetchone_filter_some {A} (p : A -> bool) l r :
  fetchone (filter p l) = Some r -> In r l /\ p r = true.
Proof.
  unfold fetchone. intros H. apply filter_In.
  destruct (filter p l) as [|x xs]; [discriminate|].
  cbn in H. injection H as ->. left; reflexivity.
Qed.

Lemma handle_get_version rq tenant version_id vid st :
  route rq = GET_version version_id ->
  resolves (authorization rq) tenant ->
  uuid_parse version_id = Some vid ->
  fst (handle rq st)
  = match select_version vid (tables st) with
    | Some r => Return (version_body r)
    | None => Raise (HTTPException 404 "Version not found")
    end.
Proof.
  intros Hroute Hres Hparse.
  assert (Hreq : requires_tenant (route rq) = true) by (rewrite Hroute; reflexivity).
  destruct (handle_resolved rq tenant st Hreq Hres) as [v ->].
  unfold endpoint. rewrite Hroute. unfold get_version, uuid_UUID. rewrite Hparse.
  unfold_monad. cbn. destruct (select_version vid (tables st)); reflexivity.
Qed.

Lemma handle_get_policy rq tenant policy_id pid st :
  route rq = GET_policy policy_id ->
  resolves (authorization rq) tenant ->
  uuid_parse policy_id = Some pid ->
  fst (handle rq st)
  = match select_policy pid (tables st) with
    | Some r => Return (policy_body r)
    | None => Raise (HTTPException 404 "Policy not found")
    end.
Proof.
  intros Hroute Hres Hparse.
  assert (Hreq : requires_tenant (route rq) = true) by (rewrite Hroute; reflexivity).
  destruct (handle_resolved rq tenant st Hreq Hres) as [v ->].
  unfold endpoint. rewrite Hroute. unfold get_policy, uuid_UUID. rewrite Hparse.
  unfold_monad. cbn. destruct (select_policy pid (tables st)); reflexivity.
Qed.

(** X12: a get of a version answers 404 Version not found exactly when
    no version row carries the identifier; otherwise it answers with the
    fields of a row that carries it. *)
Theorem get_version_found_or_404 rq tenant version_id vid st :
  route rq = GET_version version_id ->
  resolves (authorization rq) tenant ->
  uuid_parse version_id = Some vid ->
  (fst (handle rq st) = Raise (HTTPException 404 "Version not found")
     <-> (forall r, In r (agent_versions (tables st)) -> Version.version_id r <> vid))
  /\ (forall body, fst (handle rq st) = Return body ->
        exists r, In r (agent_versions (tables st)) /\ Version.version_id r = vid
                  /\ body = version_body r).
Proof.
  intros Hroute Hres Hparse.
  rewrite (handle_get_version rq tenant version_id vid st Hroute Hres Hparse).
  unfold select_version.
  destruct (fetchone (filter _ (agent_versions (tables st)))) as [r|] eqn:E.
  - apply fetchone_filter_some in E. destruct E as [Hin Hid].
    apply N.eqb_eq in Hid. split.
    + split; [discriminate|]. intros H. exfalso. exact (H r Hin Hid).
    + intros body Hb. injection Hb as <-. exists r. auto.
  - split; [|discriminate].
    split; [|reflexivity]. intros _ r Hin Hid.
    rewrite fetchone_filter_none in E. specialize (E r Hin). cbn in E.
    apply N.eqb_neq in E. contradiction.
Qed.

(** X13: a get of a policy envelope answers 404 Policy not found exactly
    when no policy row carries the identifier; otherwise it answers with
    the fields of a row that carries it. *)
Theorem get_policy_found_or_404 rq tenant policy_id pid st :
  route rq = GET_policy policy_id ->
  resolves (authorization rq) tenant ->
  uuid_parse policy_id = Some pid ->
  (fst (handle rq st) = Raise (HTTPException 404 "Policy not found")
     <-> (forall r, In r (policy_envelopes (tables st)) -> Policy.policy_id r <> pid))
  /\ (forall body, fst (handle rq st) = Return body ->
        exists r, In r (policy_envelopes (tables st)) /\ Policy.policy_id r = pid
                  /\ body = policy_body r).
Proof.
  intros Hroute Hres Hparse.
  rewrite (handle_get_policy rq tenant policy_id pid st Hroute Hres Hparse).
  unfold select_policy.
  destruct (fetchone (filter _ (policy_envelopes (tables st)))) as [r|] eqn:E.
  - apply fetchone_filter_some in E. destruct E as [Hin Hid].
    apply N.eqb_eq in Hid. split.
    + split; [discriminate|]. intros H. exfalso. exact (H r Hin Hid).
    + intros body Hb. injection Hb as <-. exists r. auto.
  - split; [|discriminate].
    split; [|reflexivity]. intros _ r Hin Hid.
    rewrite fetchone_filter_none in E. specialize (E r Hin). cbn in E.
    apply N.eqb_neq in E. contradiction.
Qed.

(** *** Creates, and what is read back *)

(** X14: a version is never stored.  For a resolved credential and a
    well-formed template id, the INSERT of create_version binds the three
    bundle dicts, which the driver refuses: the request fails with an
    uncaught ProgrammingError, whatever the template id names, and every
    table is as it was. *)
Theorem create_version_stores_nothing rq tenant template_id req tpl st :
  route rq = POST_template_versions template_id req ->
  resolves (authorization rq) tenant ->
  uuid_parse template_id = Some tpl ->
  fst (handle rq st) = Raise driver_refuses
  /\ tables (snd (handle rq st)) = tables st.
Proof.
  intros Hroute Hres Hparse.
  assert (Hreq : requires_tenant (route rq) = true) by (rewrite Hroute; reflexivity).
  destruct (handle_resolved rq tenant st Hreq Hres) as [v ->].
  unfold endpoint. rewrite Hroute. unfold create_version, uuid_UUID. rewrite Hparse.
  split; reflexivity.
Qed.

(** X16: a policy envelope is never stored.  For a resolved credential,
    the INSERT of create_policy binds the allowed_tools dict, which the
    driver refuses: the request fails with an uncaught ProgrammingError
    and every table is as it was. *)
Theorem create_policy_stores_nothing rq tenant req st :
  route rq = POST_policies req ->
  resolves (authorization rq) tenant ->
  fst (handle rq st) = Raise driver_refuses
  /\ tables (snd (handle rq st)) = tables st.
Proof.
  intros Hroute Hres.
  assert (Hreq : requires_tenant (route rq) = true) by (rewrite Hroute; reflexivity).
  destruct (handle_resolved rq tenant st Hreq Hres) as [v ->].
  unfold endpoint. rewrite Hroute. split; reflexivity.
Qed.


(** *** Instances *)


(** X19: when the version id or the policy envelope id of the body is
    not a well-formed UUID, the constructor raises before the INSERT is
    sent: the request fails with an uncaught ValueError and no row is
    created. *)
Theorem create_instance_bad_identifier rq tenant req st :
  route rq = POST_instances req ->
  resolves (authorization rq) tenant ->
  uuid_parse (ci_version_id req) = None
    \/ uuid_parse (ci_policy_envelope_id req) = None ->
  fst (handle rq st)
    = Raise (PyError "ValueError" "badly formed hexadecimal UUID string")
  /\ tables (snd (handle rq st)) = tables st.
Proof.
  intros Hroute Hres Hbad.
  assert (Hreq : requires_tenant (route rq) = true) by (rewrite Hroute; reflexivity).
  destruct (handle_resolved rq tenant st Hreq Hres) as [v ->].
  unfold endpoint. rewrite Hroute. unfold create_instance, uuid_UUID.
  destruct (uuid_parse (ci_version_id req)) as [ver|].
  - destruct Hbad as [Hbad | Hbad]; [discriminate Hbad|]. rewrite Hbad.
    split; reflexivity.
  - split; reflexivity.
Qed.



(** X21: setting a status twice is setting it once, and touches nothing
    else: the second of two equal updates changes no table, the rows of
    other instances are as they were, the number of instances is the same,
    and so is every other table. *)
Theorem update_instance_idempotent_and_local rq tenant instance_id status iid st :
  route rq = PATCH_instance instance_id status ->
  resolves (authorization rq) tenant ->
  uuid_parse instance_id = Some iid ->
  let t := tables st in
  let t' := tables (snd (handle rq st)) in
  tables (snd (handle rq (snd (handle rq st)))) = t'
  /\ length (agent_instances t') = length (agent_instances t)
  /\ filter (fun r => negb (Instance.instance_id r =? iid)%N) (agent_instances t')
     = filter (fun r => negb (Instance.instance_id r =? iid)%N) (agent_instances t)
  /\ agent_templates t' = agent_templates t
  /\ agent_versions t' = agent_versions t
  /\ evaluation_runs t' = evaluation_runs t
  /\ events t' = events t
  /\ policy_envelopes t' = policy_envelopes t.
Proof.
  intros Hroute Hres Hparse t t'. subst t t'.
  destruct (handle_update_instance rq tenant instance_id status iid
              (snd (handle rq st)) Hroute Hres Hparse) as [_ ->].
  destruct (handle_update_instance rq tenant instance_id status iid st
              Hroute Hres Hparse) as [_ ->].
  unfold update_instance_status, with_instances. cbn.
  split; [|split; [|split]].
  - f_equal. rewrite map_map. apply map_ext. intros r.
    destruct (Instance.instance_id r =? iid)%N eqn:E; cbn; rewrite E; reflexivity.
  - apply length_map.
  - induction (agent_instances (tables st)) as [|r l IH]; cbn; [reflexivity|].
    destruct (Instance.instance_id r =? iid)%N eqn:E; cbn; rewrite E; cbn;
      [exact IH | f_equal; exact IH].
  - repeat split.
Qed.

(** *** Identifiers and credentials *)

(** X22: a path identifier that is not a well-formed UUID is not
    answered with a 4xx: on every route that takes one, the request of a
    resolved credential fails with an uncaught ValueError, after the
    dependency has run and before any statement of the route; the tables
    are unchanged. *)
Theorem ill_formed_path_identifier rq tenant text st :
  path_identifier (route rq) = Some text ->
  resolves (authorization rq) tenant ->
  uuid_parse text = None ->
  exists v,
    handle rq st
    = (Raise (PyError "ValueError" "badly formed hexadecimal UUID string"),
       {| tables := tables st; history := history st ++ [tables st];
          operations := (operations st ++ [Execute (SET_LOCAL_current_tenant v)])
                          ++ [Commit] |}).
Proof.
  intros Hpath Hres Hparse.
  assert (Hreq : requires_tenant (route rq) = true)
    by (destruct (route rq); try reflexivity; discriminate Hpath).
  destruct (handle_resolved rq tenant st Hreq Hres) as [v ->].
  exists v. unfold endpoint.
  destruct (route rq); try discriminate Hpath; injection Hpath as ->;
    unfold create_version, get_version, promote_version, update_instance,
      get_policy, uuid_UUID;
    rewrite Hparse; reflexivity.
Qed.

Lemma split_no_separator sep s :
  (forall c, In c (list_ascii_of_string s) -> c <> sep) -> split sep s = [s].
Proof.
  induction s as [|c s IH]; cbn; [reflexivity|]. intros H.
  destruct (Ascii.eqb_spec c sep) as [->|_].
  - exfalso. exact (H sep (or_introl eq_refl) eq_refl).
  - rewrite IH; [reflexivity|]. intros d Hd. exact (H d (or_intror Hd)).
Qed.

Lemma split_at_separator sep s rest :
  (forall c, In c (list_ascii_of_string s) -> c <> sep) ->
  split sep (s ++ String sep rest)%string = s :: split sep rest.
Proof.
  induction s as [|c s IH]; cbn; intros H.
  - rewrite Ascii.eqb_refl. reflexivity.
  - destruct (Ascii.eqb_spec c sep) as [->|_].
    + exfalso. exact (H sep (or_introl eq_refl) eq_refl).
    + rewrite IH; [reflexivity|]. intros d Hd. exact (H d (or_intror Hd)).
Qed.

Lemma bearer_header x :
  (("Bearer " ++ x)%string =? "") = false
  /\ startswith "Bearer " ("Bearer " ++ x)%string = true
  /\ nth_error (split " " ("Bearer " ++ x)%string) 1 = hd_error (split " " x).
Proof.
  split; [reflexivity|]. split.
  - unfold startswith. cbn. destruct x; reflexivity.
  - cbn. destruct (split " " x) as [|w ws] eqn:E; [|reflexivity].
    exfalso. exact (split_not_nil _ _ E).
Qed.

(** X23: the token is the text between the first and the second space
    of the header: whatever follows a second space is ignored, and the
    header resolves to the tenant the token alone resolves to. *)
Theorem text_after_the_token_is_ignored token rest tenant :
  (forall c, In c (list_ascii_of_string token) -> c <> " "%char) ->
  resolves (Some ("Bearer " ++ token)%string) tenant ->
  resolves (Some ("Bearer " ++ token ++ " " ++ rest)%string) tenant.
Proof.
  intros Hns. unfold resolves, get_current_tenant.
  destruct (bearer_header token) as [E1 [E2 E3]].
  destruct (bearer_header (token ++ " " ++ rest)) as [F1 [F2 F3]].
  rewrite E1, E2, E3, F1, F2, F3.
  rewrite (split_no_separator " " token Hns).
  change (" " ++ rest)%string with (String " " rest).
  rewrite (split_at_separator " " token rest Hns).
  cbn [hd_error]. intros H. exact H.
Qed.

End Lifecycle.

(* ------------------------------------------------------------------ *)
(** ** The properties on concrete stores *)

Section Examples.
#[local] Existing Instance Sample.library.

Lemma unauthenticated_before_store_access_witness :
  requires_tenant (route Sample.undecodable_rq) = true
  /\ exists detail,
       handle Sample.undecodable_rq Sample.candidate_store
       = (Raise (HTTPException 401 detail), Sample.candidate_store).
Proof.
  split; [reflexivity|].
  apply unauthenticated_before_store_access; [reflexivity|].
  apply (credential_undecodable _ "garbage"
           (PyError "DecodeError" "Not enough segments")); reflexivity.
Defined.

(** C1 on the code: the version is a candidate and has a passed run, the
    credential resolves, and the promotion does not succeed: it raises the
    driver's ProgrammingError, and the failing call has changed the
    release_status to approved. *)
Theorem candidate_promotion_fails_after_commit :
  select_release_status Sample.vid (tables Sample.candidate_store) = Some "candidate"
  /\ has_passed_run Sample.vid (tables Sample.candidate_store) = true
  /\ resolves Sample.bearer1 Sample.tenant1
  /\ uuid_parse Sample.vid_text = Some Sample.vid
  /\ fst (handle Sample.promote_rq Sample.candidate_store) = Raise driver_refuses
  /\ select_release_status Sample.vid
       (tables (snd (handle Sample.promote_rq Sample.candidate_store)))
     = Some "approved".
Proof. repeat split. Qed.

(** C3 on the code: the promotion of the candidate version commits the
    status update and then fails on the event.  The state it leaves, the
    last one committed, has the version approved and no event. *)
Theorem approved_committed_without_event :
  fst (handle Sample.promote_rq Sample.candidate_store) = Raise driver_refuses
  /\ history (snd (handle Sample.promote_rq Sample.candidate_store))
     = [tables Sample.candidate_store;
        tables (snd (handle Sample.promote_rq Sample.candidate_store))]
  /\ select_release_status Sample.vid
       (tables (snd (handle Sample.promote_rq Sample.candidate_store)))
     = Some "approved"
  /\ events (tables (snd (handle Sample.promote_rq Sample.candidate_store))) = [].
Proof. repeat split. Qed.

(** C4 on the code: the promotion of the candidate version with a passed
    run returns no success body, and after it no AgentVersionPromoted
    event exists for the version, which is approved. *)
Theorem no_promotion_event_recorded :
  (forall body, fst (handle Sample.promote_rq Sample.candidate_store) <> Return body)
  /\ promotions_of Sample.vid
       (tables (snd (handle Sample.promote_rq Sample.candidate_store))) = []
  /\ select_release_status Sample.vid
       (tables (snd (handle Sample.promote_rq Sample.candidate_store)))
     = Some "approved".
Proof. repeat split. intros body H. discriminate H. Qed.

(** C7, as stated, fails: of two promotions of the candidate version
    whose steps overlap, neither fails with the precondition error or a
    conflict.  Both pass the two checks, both send and commit the status
    update, and both end in the driver's ProgrammingError. *)
Lemma overlapping_promotions_both_pass_the_checks :
  select_release_status Sample.vid (tables Sample.candidate_store) = Some "candidate"
  /\ has_passed_run Sample.vid (tables Sample.candidate_store) = true
  /\ let '(a, b, st') :=
       interleave Sample.overlapping Sample.vid_text Sample.tenant1
         start start Sample.candidate_store in
     pc a = finished (Raise driver_refuses)
     /\ pc b = finished (Raise driver_refuses)
     /\ operations st'
        = [Execute (SELECT_release_status Sample.vid);
           Execute (SELECT_release_status Sample.vid);
           Execute (SELECT_evaluation_runs Sample.vid);
           Execute (SELECT_evaluation_runs Sample.vid);
           Execute (UPDATE_release_status Sample.vid); Commit;
           Execute (UPDATE_release_status Sample.vid); Commit]
     /\ map (select_release_status Sample.vid) (history st')
        = [Some "approved"; Some "approved"].
Proof. repeat split. Qed.

Lemma two_promotions_in_a_row_witness :
  select_release_status Sample.vid (tables Sample.candidate_store) = Some "candidate"
  /\ has_passed_run Sample.vid (tables Sample.candidate_store) = true
  /\ fst (handle Sample.promote_again_rq
            (snd (handle Sample.promote_rq Sample.candidate_store)))
     = Raise precondition_failed
  /\ tables (snd (handle Sample.promote_again_rq
                    (snd (handle Sample.promote_rq Sample.candidate_store))))
     = tables (snd (handle Sample.promote_rq Sample.candidate_store)).
Proof.
  split; [reflexivity|]. split; [reflexivity|].
  apply (two_promotions_in_a_row Sample.promote_rq Sample.promote_again_rq
           Sample.tenant1 Sample.tenant2 Sample.vid_text Sample.vid_text
           Sample.vid Sample.candidate_store); reflexivity.
Defined.



(** C6, as stated, fails: tenant 2 asks for a version under the template
    of tenant 1, and under a template id no row carries; neither request
    is answered NotFound: both end in the driver's ProgrammingError. *)
Lemma foreign_template_is_not_answered_not_found :
  map Template.tenant_id (agent_templates (tables Sample.draft_store))
    = [Sample.tenant1]
  /\ map Template.template_id (agent_templates (tables Sample.draft_store))
     = [Sample.tpl]
  /\ resolves Sample.bearer2 Sample.tenant2
  /\ Sample.tenant2 <> Sample.tenant1
  /\ uuid_parse Sample.tpl_text = Some Sample.tpl
  /\ fst (handle Sample.foreign_version_rq Sample.draft_store) = Raise driver_refuses
  /\ uuid_parse Sample.unknown_text = Some 255%N
  /\ fst (handle Sample.orphan_version_rq Sample.draft_store) = Raise driver_refuses.
Proof. repeat split; discriminate. Qed.

Lemma create_version_never_not_found_witness :
  route Sample.foreign_version_rq
    = POST_template_versions Sample.tpl_text Sample.version_request
  /\ fst (handle Sample.foreign_version_rq Sample.draft_store)
     <> Raise (HTTPException 404 "Template not found").
Proof.
  split; [reflexivity|].
  apply (create_version_never_not_found Sample.foreign_version_rq Sample.tpl_text
           Sample.version_request Sample.draft_store "Template not found").
  reflexivity.
Defined.

(** C9, as stated, fails: the answer to a token the decoder refuses
    carries the text of the decoder's exception, and is none of the fixed
    failures. *)
Lemma decoder_exception_text_in_response :
  jwt_decode "garbage" = Raise (PyError "DecodeError" "Not enough segments")
  /\ fst (handle Sample.undecodable_rq Sample.candidate_store)
     = Raise (HTTPException 401 "Invalid token: Not enough segments")
  /\ ~ In (HTTPException 401 "Invalid token: Not enough segments") fixed_failures.
Proof.
  repeat split.
  intros H. cbn in H. repeat (destruct H as [H | H]; try discriminate H). exact H.
Qed.

Lemma failures_of_a_request_witness :
  fst (handle Sample.undecodable_rq Sample.candidate_store)
    = Raise (HTTPException 401 "Invalid token: Not enough segments")
  /\ (In (HTTPException 401 "Invalid token: Not enough segments") fixed_failures
      \/ token_failure (HTTPException 401 "Invalid token: Not enough segments")).
Proof.
  split; [reflexivity|].
  apply (failures_of_a_request Sample.undecodable_rq Sample.candidate_store).
  reflexivity.
Defined.

(** C2 on the code: tenant 1 creates a template; tenant 2 then finds it
    in its listing.  The session the dependency hands to the route no
    longer has the tenant setting. *)
Theorem tenant2_reads_what_tenant1_created :
  let st1 := snd (handle Sample.create_template_rq Sample.empty_store) in
  resolves Sample.bearer1 Sample.tenant1
  /\ resolves Sample.bearer2 Sample.tenant2
  /\ Sample.tenant1 <> Sample.tenant2
  /\ fst (handle Sample.create_template_rq Sample.empty_store)
     = Return (JObj [("template_id", JStr Sample.tpl_text); ("name", JStr "triage")])
  /\ map Template.tenant_id (agent_templates (tables st1)) = [Sample.tenant1]
  /\ current_tenant (snd (get_current_tenant Sample.bearer2 (SessionLocal st1))) = None
  /\ fst (handle (Sample.request Sample.bearer2 GET_templates) st1)
     = Return (JObj [("templates",
                      JArr [JObj [("template_id", JStr Sample.tpl_text);
                                  ("name", JStr "triage");
                                  ("description", JNull);
                                  ("tags", JArr [JStr "support"]);
                                  ("created_at", JStr (isoformat 100%N))]])]).
Proof.
  repeat split; discriminate.
Qed.

(** A claim that carries a statement: the dependency sends it and
    commits, so that a listing empties the table it lists from. *)
Example injected_statement_is_committed :
  injection_free (authorization Sample.injecting_rq) = false
  /\ reads_only (route Sample.injecting_rq) = true
  /\ agent_templates (tables Sample.candidate_store) = [Sample.template1]
  /\ agent_templates (tables (snd (handle Sample.injecting_rq Sample.candidate_store)))
     = [].
Proof. repeat split. Qed.

(** *** The further properties on concrete stores *)

Lemma list_templates_newest_first_witness :
  resolves Sample.bearer2 Sample.tenant2
  /\ exists rows,
       fst (handle (Sample.request Sample.bearer2 GET_templates) Sample.candidate_store)
         = Return (JObj [("templates", JArr (map template_entry rows))])
       /\ Permutation rows (agent_templates (tables Sample.candidate_store))
       /\ StronglySorted
            (fun a b => (Template.created_at b <= Template.created_at a)%N) rows
       /\ tables (snd (handle (Sample.request Sample.bearer2 GET_templates)
                         Sample.candidate_store))
          = tables Sample.candidate_store.
Proof.
  split; [reflexivity|].
  apply (list_templates_newest_first (Sample.request Sample.bearer2 GET_templates)
           Sample.tenant2 Sample.candidate_store); reflexivity.
Defined.

Lemma list_policies_newest_first_witness :
  resolves Sample.bearer2 Sample.tenant2
  /\ exists rows,
       fst (handle (Sample.request Sample.bearer2 GET_policies) Sample.policy_store)
         = Return (JObj [("policies", JArr (map policy_entry rows))])
       /\ Permutation rows (policy_envelopes (tables Sample.policy_store))
       /\ StronglySorted
            (fun a b => (Policy.created_at b <= Policy.created_at a)%N) rows
       /\ tables (snd (handle (Sample.request Sample.bearer2 GET_policies)
                         Sample.policy_store))
          = tables Sample.policy_store.
Proof.
  split; [reflexivity|].
  apply (list_policies_newest_first (Sample.request Sample.bearer2 GET_policies)
           Sample.tenant2); reflexivity.
Defined.

Lemma list_instances_is_the_join_witness :
  resolves Sample.bearer1 Sample.tenant1
  /\ exists rows,
       fst (handle (Sample.request Sample.bearer1 GET_instances) Sample.candidate_store)
         = Return (JObj [("instances", JArr (map instance_entry rows))])
       /\ (forall i v tp,
             In (i, v, tp) rows
             <-> (In i (agent_instances (tables Sample.candidate_store))
                  /\ In v (agent_versions (tables Sample.candidate_store))
                  /\ In tp (agent_templates (tables Sample.candidate_store))
                  /\ Instance.version_id i = Version.version_id v
                  /\ Version.template_id v = Template.template_id tp))
       /\ StronglySorted
            (fun a b => (Instance.created_at (fst (fst b))
                         <= Instance.created_at (fst (fst a)))%N) rows
       /\ tables (snd (handle (Sample.request Sample.bearer1 GET_instances)
                         Sample.candidate_store))
          = tables Sample.candidate_store.
Proof.
  split; [reflexivity|].
  apply (list_instances_is_the_join (Sample.request Sample.bearer1 GET_instances)
           Sample.tenant1 Sample.candidate_store); reflexivity.
Defined.

Lemma events_never_written_witness :
  injection_free (authorization Sample.promote_rq) = true
  /\ events (tables (snd (handle Sample.promote_rq Sample.candidate_store)))
     = events (tables Sample.candidate_store).
Proof.
  split; [reflexivity|].
  apply (events_never_written Sample.promote_rq Sample.candidate_store).
  reflexivity.
Defined.

Lemma evaluation_runs_never_written_witness :
  injection_free (authorization Sample.promote_rq) = true
  /\ evaluation_runs (tables (snd (handle Sample.promote_rq Sample.candidate_store)))
     = evaluation_runs (tables Sample.candidate_store).
Proof.
  split; [reflexivity|].
  apply (evaluation_runs_never_written Sample.promote_rq Sample.candidate_store).
  reflexivity.
Defined.

Lemma versions_kept_witness :
  injection_free (authorization Sample.promote_rq) = true
  /\ Forall2 version_kept (agent_versions (tables Sample.candidate_store))
       (agent_versions (tables (snd (handle Sample.promote_rq Sample.candidate_store)))).
Proof.
  split; [reflexivity|].
  apply (versions_kept Sample.promote_rq Sample.candidate_store). reflexivity.
Defined.

Lemma instances_kept_witness :
  injection_free (authorization Sample.pause_rq) = true
  /\ exists kept added,
       agent_instances (tables (snd (handle Sample.pause_rq Sample.candidate_store)))
         = kept ++ added
       /\ Forall2 instance_kept (agent_instances (tables Sample.candidate_store)) kept
       /\ Forall (fun r => Instance.status r = "provisioning") added
       /\ length added <= 1.
Proof.
  split; [reflexivity|].
  apply (instances_kept Sample.pause_rq Sample.candidate_store). reflexivity.
Defined.

Lemma templates_append_only_policies_unchanged_witness :
  injection_free (authorization Sample.create_template_rq) = true
  /\ exists new_templates,
       agent_templates (tables (snd (handle Sample.create_template_rq
                                       Sample.policy_store)))
         = agent_templates (tables Sample.policy_store) ++ new_templates
       /\ length new_templates <= 1
       /\ (new_templates <> [] ->
           exists req, route Sample.create_template_rq = POST_templates req)
       /\ policy_envelopes (tables (snd (handle Sample.create_template_rq
                                          Sample.policy_store)))
          = policy_envelopes (tables Sample.policy_store).
Proof.
  split; [reflexivity|].
  apply (templates_append_only_policies_unchanged Sample.create_template_rq
           Sample.policy_store). reflexivity.
Defined.


Lemma no_route_to_candidate_witness :
  no_candidate (tables Sample.draft_store)
  /\ no_candidate
       (tables (serve [Sample.create_template_rq; Sample.foreign_version_rq;
                       Sample.promote_rq; Sample.pause_rq]
                  Sample.draft_store)).
Proof.
  assert (Hno : no_candidate (tables Sample.draft_store)).
  { constructor; [discriminate | constructor]. }
  split; [exact Hno|].
  apply (no_route_to_candidate
           [Sample.create_template_rq; Sample.foreign_version_rq;
            Sample.promote_rq; Sample.pause_rq] Sample.draft_store Hno).
  repeat constructor.
Defined.

Lemma approved_versions_never_change_witness :
  nth_error (agent_versions (tables Sample.approved_store)) 0
    = Some (Sample.version1 "approved")
  /\ nth_error
       (agent_versions
          (tables (serve [Sample.promote_rq; Sample.pause_rq; Sample.create_version_rq]
                     Sample.approved_store))) 0
     = Some (Sample.version1 "approved").
Proof.
  split; [reflexivity|].
  apply (approved_versions_never_change
           [Sample.promote_rq; Sample.pause_rq; Sample.create_version_rq]
           Sample.approved_store 0 (Sample.version1 "approved"));
    [reflexivity | reflexivity | repeat constructor].
Defined.

Lemma get_version_found_or_404_witness :
  uuid_parse Sample.unknown_text = Some 255%N
  /\ (fst (handle (Sample.request Sample.bearer1 (GET_version Sample.unknown_text))
             Sample.candidate_store)
      = Raise (HTTPException 404 "Version not found")
      <-> (forall r, In r (agent_versions (tables Sample.candidate_store)) ->
                     Version.version_id r <> 255%N)).
Proof.
  split; [reflexivity|].
  apply (get_version_found_or_404
           (Sample.request Sample.bearer1 (GET_version Sample.unknown_text))
           Sample.tenant1 Sample.unknown_text 255%N Sample.candidate_store);
    reflexivity.
Defined.

Lemma get_policy_found_or_404_witness :
  uuid_parse Sample.pol_text = Some Sample.pol
  /\ (fst (handle (Sample.request Sample.bearer1 (GET_policy Sample.pol_text))
             Sample.candidate_store)
      = Raise (HTTPException 404 "Policy not found")
      <-> (forall r, In r (policy_envelopes (tables Sample.candidate_store)) ->
                     Policy.policy_id r <> Sample.pol)).
Proof.
  split; [reflexivity|].
  apply (get_policy_found_or_404
           (Sample.request Sample.bearer1 (GET_policy Sample.pol_text))
           Sample.tenant1 Sample.pol_text Sample.pol Sample.candidate_store);
    reflexivity.
Defined.

Lemma create_version_stores_nothing_witness :
  resolves Sample.bearer2 Sample.tenant2
  /\ uuid_parse Sample.tpl_text = Some Sample.tpl
  /\ fst (handle Sample.foreign_version_rq Sample.draft_store) = Raise driver_refuses
  /\ tables (snd (handle Sample.foreign_version_rq Sample.draft_store))
     = tables Sample.draft_store.
Proof.
  split; [reflexivity|]. split; [reflexivity|].
  apply (create_version_stores_nothing Sample.foreign_version_rq Sample.tenant2
           Sample.tpl_text Sample.version_request Sample.tpl Sample.draft_store);
    reflexivity.
Defined.

Lemma promotion_refused_leaves_the_tables_witness :
  select_release_status Sample.vid (tables Sample.draft_store) = Some "draft"
  /\ fst (handle Sample.promote_rq Sample.draft_store) = Raise precondition_failed
  /\ tables (snd (handle Sample.promote_rq Sample.draft_store))
     = tables Sample.draft_store.
Proof.
  split; [reflexivity|].
  destruct (promotion_refused_leaves_the_tables Sample.promote_rq Sample.tenant1
              Sample.vid_text Sample.vid Sample.draft_store) as [Hrefused _];
    try reflexivity.
  apply Hrefused. discriminate.
Defined.

Lemma create_policy_stores_nothing_witness :
  resolves Sample.bearer1 Sample.tenant1
  /\ fst (handle Sample.create_policy_rq Sample.candidate_store) = Raise driver_refuses
  /\ tables (snd (handle Sample.create_policy_rq Sample.candidate_store))
     = tables Sample.candidate_store.
Proof.
  split; [reflexivity|].
  apply (create_policy_stores_nothing Sample.create_policy_rq Sample.tenant1
           Sample.policy_request Sample.candidate_store); reflexivity.
Defined.



Lemma create_instance_bad_identifier_witness :
  uuid_parse (ci_policy_envelope_id Sample.bad_instance_request) = None
  /\ fst (handle (Sample.request Sample.bearer1
                    (POST_instances Sample.bad_instance_request))
            Sample.candidate_store)
     = Raise (PyError "ValueError" "badly formed hexadecimal UUID string")
  /\ tables (snd (handle (Sample.request Sample.bearer1
                            (POST_instances Sample.bad_instance_request))
                    Sample.candidate_store))
     = tables Sample.candidate_store.
Proof.
  split; [reflexivity|].
  apply (create_instance_bad_identifier
           (Sample.request Sample.bearer1 (POST_instances Sample.bad_instance_request))
           Sample.tenant1 Sample.bad_instance_request Sample.candidate_store);
    [reflexivity | reflexivity | right; reflexivity].
Defined.


Lemma update_instance_idempotent_and_local_witness :
  tables (snd (handle Sample.pause_rq (snd (handle Sample.pause_rq Sample.candidate_store))))
    = tables (snd (handle Sample.pause_rq Sample.candidate_store))
  /\ length (agent_instances (tables (snd (handle Sample.pause_rq Sample.candidate_store))))
     = length (agent_instances (tables Sample.candidate_store)).
Proof.
  pose proof (update_instance_idempotent_and_local Sample.pause_rq Sample.tenant1
                Sample.iid_text "paused" Sample.iid Sample.candidate_store
                eq_refl eq_refl eq_refl) as H.
  cbv zeta in H. destruct H as [H1 [H2 _]]. split; [exact H1 | exact H2].
Defined.

Lemma ill_formed_path_identifier_witness :
  uuid_parse "latest" = None
  /\ exists v,
       handle (Sample.request Sample.bearer1 (POST_version_promote "latest"))
         Sample.candidate_store
       = (Raise (PyError "ValueError" "badly formed hexadecimal UUID string"),
          {| tables := tables Sample.candidate_store;
             history := history Sample.candidate_store
                          ++ [tables Sample.candidate_store];
             operations := (operations Sample.candidate_store
                              ++ [Execute (SET_LOCAL_current_tenant v)])
                             ++ [Commit] |}).
Proof.
  split; [reflexivity|].
  apply (ill_formed_path_identifier
           (Sample.request Sample.bearer1 (POST_version_promote "latest"))
           Sample.tenant1 "latest" Sample.candidate_store); reflexivity.
Defined.

Lemma text_after_the_token_is_ignored_witness :
  resolves (Some "Bearer h.00000000-0000-0000-0000-000000000001.s") Sample.tenant1
  /\ resolves (Some "Bearer h.00000000-0000-0000-0000-000000000001.s and more")
       Sample.tenant1.
Proof.
  split; [reflexivity|].
  apply (text_after_the_token_is_ignored
           "h.00000000-0000-0000-0000-000000000001.s" "and more" Sample.tenant1);
    [|reflexivity].
  intros c Hc Heq. subst c. cbn in Hc.
  repeat (destruct Hc as [Hc | Hc]; [discriminate Hc|]). exact Hc.
Defined.


Lemma reads_ignore_tenant_witness :
  Sample.tenant1 <> Sample.tenant2
  /\ fst (handle (Sample.request Sample.bearer1 (GET_version Sample.vid_text))
            Sample.candidate_store)
     = fst (handle (Sample.request Sample.bearer2 (GET_version Sample.vid_text))
              Sample.candidate_store).
Proof.
  split; [discriminate|].
  apply (reads_ignore_tenant
           (Sample.request Sample.bearer1 (GET_version Sample.vid_text))
           (Sample.request Sample.bearer2 (GET_version Sample.vid_text))
           Sample.tenant1 Sample.tenant2 Sample.candidate_store);
    [reflexivity | exact I | reflexivity | reflexivity].
Defined.

Lemma promotion_of_candidate_commits_then_raises_witness :
  select_release_status Sample.vid (tables Sample.candidate_store) = Some "candidate"
  /\ has_passed_run Sample.vid (tables Sample.candidate_store) = true
  /\ fst (handle Sample.promote_rq Sample.candidate_store) = Raise driver_refuses
  /\ tables (snd (handle Sample.promote_rq Sample.candidate_store))
     = update_release_status Sample.vid (tables Sample.candidate_store)
  /\ select_release_status Sample.vid
       (tables (snd (handle Sample.promote_rq Sample.candidate_store)))
     = Some "approved"
  /\ events (tables (snd (handle Sample.promote_rq Sample.candidate_store)))
     = events (tables Sample.candidate_store)
  /\ history (snd (handle Sample.promote_rq Sample.candidate_store))
     = history Sample.candidate_store
       ++ [tables Sample.candidate_store;
           update_release_status Sample.vid (tables Sample.candidate_store)].
Proof.
  split; [reflexivity|]. split; [reflexivity|].
  apply (promotion_of_candidate_commits_then_raises Sample.promote_rq Sample.tenant1
           Sample.vid_text Sample.vid Sample.candidate_store); reflexivity.
Defined.

Lemma get_current_tenant_drops_setting_witness :
  fst (get_current_tenant Sample.bearer1 (SessionLocal Sample.candidate_store))
    = Return Sample.tenant1
  /\ current_tenant
       (snd (get_current_tenant Sample.bearer1 (SessionLocal Sample.candidate_store)))
     = None.
Proof.
  split; [reflexivity|].
  apply (get_current_tenant_drops_setting Sample.bearer1 Sample.tenant1
           (SessionLocal Sample.candidate_store)).
  reflexivity.
Defined.

End Examples.
